(** * Benchmark harness utilities: a shallow embedding

    Three Python files are embedded here:
    - [scripts/userbenchmark/upload_s3_csv.py]  (module [UploadS3Csv]),
    - [userbenchmark/torchao/upload.py]         (module [TorchaoUpload]),
    - [torchbenchmark/util/experiment/metrics.py] (module [Metrics]).

    Python exceptions are values of [exn]; code that can raise returns a
    [result].  Code that talks to the outside (clock, model, monitor, files)
    threads an explicit state and keeps it when an exception propagates. *)

From Stdlib Require Import ZArith List String Ascii Bool Lia Floats.
Import ListNotations.

(** ** Python-level vocabulary shared by the three files *)
Module Py.

Inductive exn : Type :=
| ValueError            (* raise ValueError(...) *)
| RuntimeError          (* raise RuntimeError(...) *)
| TypeError             (* wrong call shape *)
| ZeroDivisionError     (* x / 0.0 *)
| OverflowError         (* int too large to convert to float *)
| FileNotFoundError     (* open() on a missing path *)
| UnsupportedOperation  (* io.UnsupportedOperation: not writable *)
| PatternError          (* re.error: the text is no pattern *)
| ModelError.           (* whatever the measured callback raises *)

Inductive result (A : Type) : Type :=
| Ok (a : A)
| Raise (e : exn).
Arguments Ok {A} a.
Arguments Raise {A} e.

Definition is_ok {A} (r : result A) : bool :=
  match r with Ok _ => true | Raise _ => false end.

(** [p] is an initial segment of [s] *)
Fixpoint starts_with (p s : string) : bool :=
  match p, s with
  | EmptyString, _ => true
  | String _ _, EmptyString => false
  | String a p', String b s' => Ascii.eqb a b && starts_with p' s'
  end.

(** Python's [sub in s] on strings *)
Fixpoint str_in (sub s : string) : bool :=
  starts_with sub s ||
  match s with
  | EmptyString => false
  | String _ s' => str_in sub s'
  end.

(** [sub] occurs inside [s], as a statement *)
Definition contains (sub s : string) : Prop :=
  exists p q, s = (p ++ sub ++ q)%string.

(** Python's [x in l] on a list of strings *)
Definition mem (x : string) (l : list string) : bool :=
  existsb (String.eqb x) l.

(** Python's [list.remove(x)]: drops the first occurrence, [ValueError]
    when there is none *)
Fixpoint list_remove (x : string) (l : list string) : result (list string) :=
  match l with
  | [] => Raise ValueError
  | y :: l' =>
      if String.eqb x y then Ok l'
      else match list_remove x l' with
           | Ok r => Ok (y :: r)
           | Raise e => Raise e
           end
  end.

(** State-and-exception monad: the state survives a raise. *)
Definition M (S A : Type) : Type := S -> result A * S.

Definition ret {S A} (a : A) : M S A := fun s => (Ok a, s).

Definition bind {S A B} (m : M S A) (k : A -> M S B) : M S B :=
  fun s =>
    match m s with
    | (Ok a, s') => k a s'
    | (Raise e, s') => (Raise e, s')
    end.

Definition raise {S A} (e : exn) : M S A := fun s => (Raise e, s).

(** [try: body finally: cleanup], as a [with] block releases its resource *)
Definition finally {S A} (body : M S A) (cleanup : M S unit) : M S A :=
  fun s =>
    match body s with
    | (r, s') =>
        match cleanup s' with
        | (Ok _, s'') => (r, s'')
        | (Raise e, s'') => (Raise e, s'')
        end
    end.

(** [for _ in range(n): acc = body(acc)] *)
Fixpoint for_range {S A} (n : nat) (body : A -> M S A) (acc : A) : M S A :=
  match n with
  | O => ret acc
  | S n' => bind (body acc) (for_range n' body)
  end.

(** [for x in l: acc = body(acc, x)] *)
Fixpoint foldM {S A B} (body : B -> A -> M S B) (l : list A) (acc : B)
  : M S B :=
  match l with
  | [] => ret acc
  | x :: l' => bind (body acc x) (foldM body l')
  end.

(** [enumerate(l)] *)
Definition enumerate {A} (l : list A) : list (nat * A) :=
  combine (seq 0 (List.length l)) l.

(** a pure computation that may raise, run inside [M] *)
Definition lift {S A} (r : result A) : M S A := fun s => (r, s).

(** Python's [range(n)] runs [max n 0] times *)
Definition range (n : Z) : nat := Z.to_nat n.

End Py.

Import Py.

Declare Scope py_scope.
Delimit Scope py_scope with py.
Notation "x <- m ;; k" := (bind m (fun x => k))
  (at level 61, m at next level, right associativity) : py_scope.
Notation "m ;;; k" := (bind m (fun _ => k))
  (at level 61, right associativity) : py_scope.

(** ** scripts/userbenchmark/upload_s3_csv.py *)
Module UploadS3Csv.

(** What the function calls and these files do not hold: the [re] library
    and [os.listdir].  A pattern is whatever [re.compile] makes of a text;
    nothing is assumed of the pattern language or of the characters of a
    name. *)
Record system : Type := {
  pattern : Type;                          (* compiled patterns *)
  re_compile : string -> result pattern;   (* [re.compile(text)], which
                                              raises for a text that is no
                                              pattern *)
  pattern_match : pattern -> string -> bool;
                                           (* [p.match(name)] gives a match:
                                              the pattern matches at the
                                              start of [name] *)
  listdir : string -> result (list string) (* [os.listdir(path)] *)
}.

(** [_get_files_to_upload]: the pattern is compiled first, then the
    directory is listed and its entries tested one by one *)
Definition _get_files_to_upload (Sys : system) (file_path match_filename : string)
  : result (list string) :=
  match re_compile Sys match_filename with
  | Raise e => Raise e
  | Ok filename_regex =>
      match listdir Sys file_path with
      | Raise e => Raise e
      | Ok entries =>
          Ok (filter (fun file_name =>
                        pattern_match Sys filename_regex file_name)
                     entries)
      end
  end.


End UploadS3Csv.

(** ** userbenchmark/torchao/upload.py *)
Module TorchaoUpload.

Open Scope string_scope.
Open Scope py_scope.

Definition _get_model_set (filename : string) : result string :=
  if str_in "timm_models" filename then Ok "timm"
  else if str_in "huggingface" filename then Ok "huggingface"
  else if str_in "torchbench" filename then Ok "torchbench"
  else Raise RuntimeError.

(** Cell values: text read from the file, or the integers the code puts in
    ([job_id = 0], and [0] where an environment variable is unset). *)
Inductive pyval : Type :=
| PStr (s : string)
| PInt (z : Z).

(** A CSV row is a [dict]; keys keep their insertion order, which is what
    [row.keys()] hands to the writer. *)
Definition row : Type := list (string * pyval).

Fixpoint dict_set (d : row) (k : string) (v : pyval) : row :=
  match d with
  | [] => [(k, v)]
  | (k', v') :: d' =>
      if String.eqb k k' then (k', v) :: d' else (k', v') :: dict_set d' k v
  end.

Fixpoint dict_get (d : row) (k : string) : option pyval :=
  match d with
  | [] => None
  | (k', v') :: d' => if String.eqb k k' then Some v' else dict_get d' k
  end.

Definition dict_update (d : row) (kvs : row) : row :=
  fold_left (fun acc kv => dict_set acc (fst kv) (snd kv)) kvs d.

Definition dict_keys (d : row) : list string := map fst d.

(** index of the last occurrence of [c], as [str.rfind] *)
Fixpoint rfind (c : ascii) (s : string) : option nat :=
  match s with
  | EmptyString => None
  | String d s' =>
      match rfind c s' with
      | Some i => Some (S i)
      | None => if Ascii.eqb c d then Some 0%nat else None
      end
  end.

(** [os.path.basename] *)
Definition basename (p : string) : string :=
  match rfind "/" p with
  | Some i => substring (S i) (String.length p - S i) p
  | None => p
  end.

Fixpoint all_dots (s : string) : bool :=
  match s with
  | EmptyString => true
  | String c s' => Ascii.eqb c "." && all_dots s'
  end.

(** [os.path.splitext(p)[0]]: cut at the last dot of the last component,
    unless only dots precede it there *)
Definition splitext_root (p : string) : string :=
  let start := match rfind "/" p with Some i => S i | None => 0%nat end in
  match rfind "." p with
  | Some dot =>
      if (start <=? dot)%nat
      then if all_dots (substring start (dot - start) p)
           then p
           else substring 0 dot p
      else p
  | None => p
  end.

(** What the process sees besides the files *)
Record environment : Type := {
  environ : string -> option string;   (* os.environ *)
  torchao_version : string             (* torchao.__version__ *)
}.

(** [os.environ.get(name, 0)] *)
Definition environ_get (E : environment) (name : string) : pyval :=
  match environ E name with
  | Some v => PStr v
  | None => PInt 0
  end.

(** Files, by path, as the rows [csv.DictReader] yields from them *)
Definition filesystem : Type := string -> option (list row).

Inductive mode : Type := ReadMode | WriteMode.

Record file : Type := { f_path : string; f_mode : mode }.

Definition fs_put (fs : filesystem) (path : string) (rows : list row)
  : filesystem :=
  fun p => if String.eqb p path then Some rows else fs p.

(** [open(path, mode)]; the mode defaults to reading.  Opening for writing
    creates or truncates. *)
Definition open (path : string) (m : mode) : M filesystem file :=
  fun fs =>
    match m with
    | ReadMode =>
        match fs path with
        | Some _ => (Ok {| f_path := path; f_mode := ReadMode |}, fs)
        | None => (Raise FileNotFoundError, fs)
        end
    | WriteMode =>
        (Ok {| f_path := path; f_mode := WriteMode |}, fs_put fs path [])
    end.

(** all the rows of [csv.DictReader(csvfile, delimiter=",")] *)
Definition read_rows (f : file) : M filesystem (list row) :=
  fun fs =>
    match fs (f_path f) with
    | Some rows => (Ok rows, fs)
    | None => (Ok [], fs)
    end.

Record DictWriter : Type := { w_file : file; fieldnames : list string }.

(** [csv.DictWriter(f, fieldnames)]: [fieldnames] is a required argument of
    the constructor, a call without it is a [TypeError]. *)
Definition new_DictWriter (f : file) (names : option (list string))
  : M filesystem DictWriter :=
  match names with
  | Some l => ret {| w_file := f; fieldnames := l |}
  | None => raise TypeError
  end.

(** [writer.writeheader()]: writes through the file object *)
Definition writeheader (w : DictWriter) : M filesystem unit :=
  match f_mode (w_file w) with
  | ReadMode => raise UnsupportedOperation
  | WriteMode => ret tt
  end.

(** [writer.writerow(row)] *)
Definition writerow (w : DictWriter) (r : row) : M filesystem unit :=
  match f_mode (w_file w) with
  | ReadMode => raise UnsupportedOperation
  | WriteMode =>
      fun fs =>
        let old := match fs (f_path (w_file w)) with
                   | Some rows => rows
                   | None => []
                   end in
        (Ok tt, fs_put fs (f_path (w_file w)) (old ++ [r])%list)
  end.

(** The nine columns [row.update] receives, in the order of the literal *)
Definition metadata (E : environment) (path modelset : string) : row :=
  [ ("workflow_id", environ_get E "WORKFLOW_RUN_ID");
    ("run_attempt", environ_get E "WORKFLOW_RUN_ATTEMPT");
    ("test_name", PStr ("torchao_" ++ modelset ++ "_perf"));
    ("runner", PStr "gcp_a100");
    ("job_id", PInt 0);
    ("filename", PStr (splitext_root (basename path)));
    ("head_repo", PStr "pytorch/ao");
    ("head_branch", PStr "main");
    ("head_sha", PStr (torchao_version E)) ].

(** The rows collected in [perf_stats] *)
Definition decorate (E : environment) (path modelset : string)
  (rows : list row) : list row :=
  map (fun r => dict_update r (metadata E path modelset)) rows.

(** One turn of the loop over [output_files].  Both [open(path)] calls take
    the default mode, as the source writes them. *)
Definition process_one (E : environment) (path : string) : M filesystem unit :=
  modelset <- lift (_get_model_set path) ;;
  csvfile <- open path ReadMode ;;
  rows <- read_rows csvfile ;;
  let perf_stats := decorate E path modelset rows in
  (* Write the decorated CSV file *)
  csvfile <- open path ReadMode ;;
  writer <- new_DictWriter csvfile None ;;
  _w <- foldM (fun (writer : DictWriter) (ir : nat * row) =>
           let (i, r) := ir in
           writer <- (if Nat.eqb i 0
                      then let w := {| w_file := w_file writer;
                                       fieldnames := dict_keys r |} in
                           writeheader w ;;; ret w
                      else ret writer) ;;
           writerow writer r ;;; ret writer)
        (enumerate perf_stats) writer ;;
  ret tt.

Definition post_ci_process (E : environment) (output_files : list string)
  : M filesystem unit :=
  foldM (fun (_ : unit) path => process_one E path) output_files tt.

End TorchaoUpload.

(** ** torchbenchmark/util/experiment/metrics.py *)
Module Metrics.

Open Scope string_scope.
Open Scope Z_scope.
Open Scope py_scope.

Definition WARMUP_ROUNDS : Z := 10.
Definition BENCHMARK_ITERS : Z := 15.
Definition MEMPROF_ITER : Z := 2.
Definition NANOSECONDS_PER_MILLISECONDS : float := 1000000%float.

(** *** Numbers *)

(** [time.time_ns()] hands back a signed 64-bit count of nanoseconds *)
Definition int64 (z : Z) : Z := (z + 2 ^ 63) mod 2 ^ 64 - 2 ^ 63.

(** First magnitude that no longer rounds to a finite double: halfway
    between the largest double and [2^1024] *)
Definition FLOAT_OVERFLOW : Z := 2 ^ 1024 - 2 ^ 970.

(** An [int] operand of a float operation: rounded to the nearest double,
    [OverflowError] beyond the doubles *)
Definition float_of_int (z : Z) : result float :=
  if Z.abs z <? FLOAT_OVERFLOW
  then Ok (SF2Prim (binary_normalize prec emax z 0 false))
  else Raise OverflowError.

(** [a / b] with [a] an [int] and [b] a [float] *)
Definition truediv (a : Z) (b : float) : result float :=
  match float_of_int a with
  | Ok fa => if PrimFloat.eqb b 0%float then Raise ZeroDivisionError
             else Ok (fa / b)%float
  | Raise e => Raise e
  end.

(** [[f(x) for x in l]]: stops at the first element that raises *)
Fixpoint comprehension {A B} (f : A -> result B) (l : list A)
  : result (list B) :=
  match l with
  | [] => Ok []
  | x :: l' =>
      match f x with
      | Ok y => match comprehension f l' with
                | Ok ys => Ok (y :: ys)
                | Raise e => Raise e
                end
      | Raise e => Raise e
      end
  end.

(** *** Data *)

Record TorchBenchModelMetrics : Type := {
  latencies : list float;
  throughputs : list float;
  accuracy : option string;
  cpu_peak_mem : option float;
  gpu_peak_mem : option float;
  ttfb : option float;
  pt2_compilation_time : option float;
  pt2_graph_breaks : option float;
  model_flops : option Z;
  error_msg : option string
}.

(** The record both [get_model_test_metrics] and [run_config] start from *)
Definition empty_metrics : TorchBenchModelMetrics :=
  {| latencies := []; throughputs := []; accuracy := None;
     cpu_peak_mem := None; gpu_peak_mem := None; ttfb := None;
     pt2_compilation_time := None; pt2_graph_breaks := None;
     model_flops := None; error_msg := None |}.

Definition set_latencies (m : TorchBenchModelMetrics) (v : list float) :=
  {| latencies := v; throughputs := throughputs m; accuracy := accuracy m;
     cpu_peak_mem := cpu_peak_mem m; gpu_peak_mem := gpu_peak_mem m;
     ttfb := ttfb m; pt2_compilation_time := pt2_compilation_time m;
     pt2_graph_breaks := pt2_graph_breaks m; model_flops := model_flops m;
     error_msg := error_msg m |}.

Definition set_throughputs (m : TorchBenchModelMetrics) (v : list float) :=
  {| latencies := latencies m; throughputs := v; accuracy := accuracy m;
     cpu_peak_mem := cpu_peak_mem m; gpu_peak_mem := gpu_peak_mem m;
     ttfb := ttfb m; pt2_compilation_time := pt2_compilation_time m;
     pt2_graph_breaks := pt2_graph_breaks m; model_flops := model_flops m;
     error_msg := error_msg m |}.

Definition set_accuracy (m : TorchBenchModelMetrics) (v : option string) :=
  {| latencies := latencies m; throughputs := throughputs m; accuracy := v;
     cpu_peak_mem := cpu_peak_mem m; gpu_peak_mem := gpu_peak_mem m;
     ttfb := ttfb m; pt2_compilation_time := pt2_compilation_time m;
     pt2_graph_breaks := pt2_graph_breaks m; model_flops := model_flops m;
     error_msg := error_msg m |}.

Definition set_peak_mem (m : TorchBenchModelMetrics) (cpu gpu : option float) :=
  {| latencies := latencies m; throughputs := throughputs m;
     accuracy := accuracy m; cpu_peak_mem := cpu; gpu_peak_mem := gpu;
     ttfb := ttfb m; pt2_compilation_time := pt2_compilation_time m;
     pt2_graph_breaks := pt2_graph_breaks m; model_flops := model_flops m;
     error_msg := error_msg m |}.

Definition set_ttfb (m : TorchBenchModelMetrics) (v : option float) :=
  {| latencies := latencies m; throughputs := throughputs m;
     accuracy := accuracy m; cpu_peak_mem := cpu_peak_mem m;
     gpu_peak_mem := gpu_peak_mem m; ttfb := v;
     pt2_compilation_time := pt2_compilation_time m;
     pt2_graph_breaks := pt2_graph_breaks m; model_flops := model_flops m;
     error_msg := error_msg m |}.

Definition set_pt2_compilation_time (m : TorchBenchModelMetrics)
  (v : option float) :=
  {| latencies := latencies m; throughputs := throughputs m;
     accuracy := accuracy m; cpu_peak_mem := cpu_peak_mem m;
     gpu_peak_mem := gpu_peak_mem m; ttfb := ttfb m;
     pt2_compilation_time := v;
     pt2_graph_breaks := pt2_graph_breaks m; model_flops := model_flops m;
     error_msg := error_msg m |}.

Definition set_pt2_graph_breaks (m : TorchBenchModelMetrics)
  (v : option float) :=
  {| latencies := latencies m; throughputs := throughputs m;
     accuracy := accuracy m; cpu_peak_mem := cpu_peak_mem m;
     gpu_peak_mem := gpu_peak_mem m; ttfb := ttfb m;
     pt2_compilation_time := pt2_compilation_time m;
     pt2_graph_breaks := v; model_flops := model_flops m;
     error_msg := error_msg m |}.

Definition set_model_flops (m : TorchBenchModelMetrics) (v : option Z) :=
  {| latencies := latencies m; throughputs := throughputs m;
     accuracy := accuracy m; cpu_peak_mem := cpu_peak_mem m;
     gpu_peak_mem := gpu_peak_mem m; ttfb := ttfb m;
     pt2_compilation_time := pt2_compilation_time m;
     pt2_graph_breaks := pt2_graph_breaks m; model_flops := v;
     error_msg := error_msg m |}.

(** The ten fields, by name *)
Definition field_names : list string :=
  ["latencies"; "throughputs"; "accuracy"; "cpu_peak_mem"; "gpu_peak_mem";
   "ttfb"; "pt2_compilation_time"; "pt2_graph_breaks"; "model_flops";
   "error_msg"].

Definition is_nil {A} (l : list A) : bool :=
  match l with [] => true | _ :: _ => false end.

Definition is_None {A} (o : option A) : bool :=
  match o with None => true | Some _ => false end.

(** the field called [field] holds its default: the empty list for the two
    lists, [None] for the others *)
Definition at_default (field : string) (m : TorchBenchModelMetrics) : bool :=
  if String.eqb field "latencies" then is_nil (latencies m)
  else if String.eqb field "throughputs" then is_nil (throughputs m)
  else if String.eqb field "accuracy" then is_None (accuracy m)
  else if String.eqb field "cpu_peak_mem" then is_None (cpu_peak_mem m)
  else if String.eqb field "gpu_peak_mem" then is_None (gpu_peak_mem m)
  else if String.eqb field "ttfb" then is_None (ttfb m)
  else if String.eqb field "pt2_compilation_time"
       then is_None (pt2_compilation_time m)
  else if String.eqb field "pt2_graph_breaks" then is_None (pt2_graph_breaks m)
  else if String.eqb field "model_flops" then is_None (model_flops m)
  else if String.eqb field "error_msg" then is_None (error_msg m)
  else false.

(** [TorchBenchModelConfig], the fields this file reads *)
Record TorchBenchModelConfig : Type := {
  name : string;
  extra_args : list string;
  metrics : list string
}.

(** What [isinstance] tells about a handle *)
Inductive handle_kind : Type :=
| KBenchmarkModel     (* in-process *)
| KModelTask          (* subprocess-isolated *)
| KOther.             (* anything else *)

(** A model handle: its class and the attributes the file queries, either
    directly or through [get_model_attribute] *)
Record model : Type := {
  kind : handle_kind;
  model_device : string;
  model_batch_size : Z;
  worker_pid : Z;
  attr_accuracy : string;
  attr_ttfb : option float;
  attr_pt2_compilation_time : option float;
  attr_pt2_graph_breaks : option float
}.

(** *** The outside world *)

Inductive event : Type :=
| EvInvoke                 (* the measured callback is entered *)
| EvSync                   (* torch.cuda.synchronize() *)
| EvStartMonitor
| EvStopMonitor
| EvAggregate
| EvExport                 (* update_export_name, export_all_records_to_csv *)
| EvFlopEnter              (* entering the FlopCounterMode scope *)
| EvFlopExit
| EvLoad (isolated : bool) (config : TorchBenchModelConfig)
| EvPrint (s : string).     (* the text [s] goes to the standard output *)

(** What the collaborators answer; fixed during a run *)
Record oracle : Type := {
  clock : nat -> Z;                   (* successive clock readings *)
  func_raises : nat -> bool;          (* does the k-th callback call raise *)
  getpid : Z;
  calculate_cpu_peak_mem : option float;
  calculate_gpu_peak_mem : option string * option float;
  flop_counts_global : list (string * Z);
  load_model : TorchBenchModelConfig -> model;
  load_model_isolated : TorchBenchModelConfig -> model;
  repr_config : TorchBenchModelConfig -> string
                                      (* the text of a configuration in an
                                         f-string; its class is not in
                                         these files *)
}.

Record world : Type := {
  n_clock : nat;              (* clock readings so far *)
  n_invoke : nat;             (* callback calls so far *)
  monitor_running : bool;
  log : list event            (* oldest first *)
}.

Definition emit (e : event) : M world unit :=
  fun w => (Ok tt, {| n_clock := n_clock w; n_invoke := n_invoke w;
                      monitor_running := monitor_running w;
                      log := (log w ++ [e])%list |}).

Definition newline : string := String (Ascii.ascii_of_nat 10) EmptyString.

(** [print(s, end=end_, flush=True)]; [end_] is [newline] when the call
    does not give it *)
Definition print (s end_ : string) : M world unit := emit (EvPrint (s ++ end_)).

Definition synchronize : M world unit := emit EvSync.

Definition start_monitor : M world unit :=
  fun w => (Ok tt, {| n_clock := n_clock w; n_invoke := n_invoke w;
                      monitor_running := true;
                      log := (log w ++ [EvStartMonitor])%list |}).

Definition stop_monitor : M world unit :=
  fun w => (Ok tt, {| n_clock := n_clock w; n_invoke := n_invoke w;
                      monitor_running := false;
                      log := (log w ++ [EvStopMonitor])%list |}).

Section WithOracle.

Variable O : oracle.

(** the [k]-th value [time.time_ns()] returns *)
Definition reading (k : nat) : Z := int64 (clock O k).

Definition time_ns : M world Z :=
  fun w => (Ok (reading (n_clock w)),
            {| n_clock := S (n_clock w); n_invoke := n_invoke w;
               monitor_running := monitor_running w; log := log w |}).

(** The measured callback, [model.invoke]: it is entered, then returns or
    raises *)
Definition invoke : M world unit :=
  fun w =>
    let w' := {| n_clock := n_clock w; n_invoke := S (n_invoke w);
                 monitor_running := monitor_running w;
                 log := (log w ++ [EvInvoke])%list |} in
    if func_raises O (n_invoke w) then (Raise ModelError, w') else (Ok tt, w').

(** [get_latencies]: run one step of the model, and return the latency in
    milliseconds *)
Definition get_latencies (func : M world unit) (device : string)
  (nwarmup num_iter : Z) : M world (list float) :=
  (* Warm-up [nwarmup] rounds *)
  for_range (range nwarmup) (fun _ => func) tt ;;;
  for_range (range num_iter)
    (fun result_summary =>
       t <- (if String.eqb device "cuda"
             then synchronize ;;;
                  t0 <- time_ns ;;
                  func ;;;
                  synchronize ;;;
                  t1 <- time_ns ;;
                  ret (t0, t1)
             else t0 <- time_ns ;;
                  func ;;;
                  t1 <- time_ns ;;
                  ret (t0, t1)) ;;
       latency <- lift (truediv (snd t - fst t) NANOSECONDS_PER_MILLISECONDS) ;;
       ret (result_summary ++ [latency])%list)
    [].

(** the local [work_func] of [get_peak_memory] and [get_model_flops] *)
Definition work_func (func : M world unit) (device : string) : M world unit :=
  if String.eqb device "cuda"
  then synchronize ;;; func ;;; synchronize
  else func.

(** The iteration count chosen after the probe.  The source compares the
    integer [t1 - t0] with the float [15 * NANOSECONDS_PER_MILLISECONDS],
    which is [15000000.0]; Python compares the two by value. *)
Definition probe_num_iter (t0 t1 : Z) : Z :=
  if t1 - t0 <? 15 * 1000000 then BENCHMARK_ITERS else MEMPROF_ITER.

(** [get_peak_memory]: returns [(cpu_peak_mem, device_id, gpu_peak_mem)].
    The [num_iter] argument only feeds [continue_num_iter], which nothing
    reads; the loop count is reassigned after the probe. *)
Definition get_peak_memory (func : M world unit) (device : string)
  (num_iter : Z) (export_metrics_file : string) (metrics_needed : list string)
  (metrics_gpu_backend : string) (cpu_monitored_pid : option Z)
  : M world (option float * option string * option float) :=
  let new_metrics_needed :=
    filter (fun x => mem x ["cpu_peak_mem"; "gpu_peak_mem"]) metrics_needed in
  match new_metrics_needed with
  | [] => raise ValueError
  | _ :: _ =>
      let continue_num_iter := BENCHMARK_ITERS - num_iter in
      t0 <- time_ns ;;
      work_func func device ;;;
      t1 <- time_ns ;;
      let num_iter := probe_num_iter t0 t1 in
      start_monitor ;;;
      for_range (range num_iter) (fun _ => work_func func device) tt ;;;
      stop_monitor ;;;
      emit EvAggregate ;;;
      let gpu := if mem "gpu_peak_mem" metrics_needed
                 then calculate_gpu_peak_mem O
                 else (None, None) in
      let cpu := if mem "cpu_peak_mem" metrics_needed
                 then calculate_cpu_peak_mem O
                 else None in
      (if String.eqb export_metrics_file "" then ret tt else emit EvExport) ;;;
      ret (cpu, fst gpu, snd gpu)
  end.

(** [get_model_flops]: one step of the model inside the counting scope, then
    the sum of the ["Global"] counts *)
Definition get_model_flops (m : model) : M world Z :=
  emit EvFlopEnter ;;;
  finally (work_func invoke (model_device m)) (emit EvFlopExit) ;;;
  ret (fold_right Z.add 0 (map snd (flop_counts_global O))).

(** [get_model_test_metrics]; [export_metrics_file] is [""] for the default
    [False] *)
Definition get_model_test_metrics (m : model) (required_metrics : list string)
  (export_metrics_file : string) (metrics_gpu_backend : string)
  (nwarmup num_iter : Z) : M world TorchBenchModelMetrics :=
  let metrics := empty_metrics in
  match kind m with
  | KOther => raise ValueError
  | _ =>
      let model_pid := match kind m with
                       | KBenchmarkModel => getpid O
                       | _ => worker_pid m
                       end in
      let device := model_device m in
      metrics <-
        (if mem "latencies" required_metrics || mem "throughputs" required_metrics
         then l <- get_latencies invoke device nwarmup num_iter ;;
              ret (set_latencies metrics l)
         else ret metrics) ;;
      metrics <-
        (if mem "cpu_peak_mem" required_metrics
            || mem "gpu_peak_mem" required_metrics
         then r <- get_peak_memory invoke device MEMPROF_ITER
                     export_metrics_file required_metrics metrics_gpu_backend
                     (Some model_pid) ;;
              ret (set_peak_mem metrics (fst (fst r)) (snd r))
         else ret metrics) ;;
      metrics <-
        (if mem "throughputs" required_metrics
         then t <- lift (comprehension
                           (fun latency => truediv (model_batch_size m * 1000) latency)
                           (latencies metrics)) ;;
              ret (set_throughputs metrics t)
         else ret metrics) ;;
      metrics <-
        (if mem "pt2_compilation_time" required_metrics
         then ret (set_pt2_compilation_time metrics (attr_pt2_compilation_time m))
         else ret metrics) ;;
      metrics <-
        (if mem "pt2_graph_breaks" required_metrics
         then ret (set_pt2_graph_breaks metrics (attr_pt2_graph_breaks m))
         else ret metrics) ;;
      metrics <-
        (if mem "model_flops" required_metrics
         then f <- get_model_flops m ;;
              ret (set_model_flops metrics (Some f))
         else ret metrics) ;;
      metrics <-
        (if mem "ttfb" required_metrics
         then ret (set_ttfb metrics (attr_ttfb m))
         else ret metrics) ;;
      ret metrics
  end.

(** [get_model_accuracy]: works on a copy of the configuration *)
Definition get_model_accuracy (model_config : TorchBenchModelConfig)
  (isolated : bool) : M world string :=
  let accuracy_model_config :=
    if mem "--accuracy" (extra_args model_config)
    then model_config
    else {| name := name model_config;
            extra_args := "--accuracy" :: extra_args model_config;
            metrics := metrics model_config |} in
  if isolated
  then emit (EvLoad true accuracy_model_config) ;;;
       ret (attr_accuracy (load_model_isolated O accuracy_model_config))
  else emit (EvLoad false accuracy_model_config) ;;;
       ret (attr_accuracy (load_model O accuracy_model_config)).

(** Values of the mapping [dataclasses.asdict] builds *)
Inductive field_value : Type :=
| FFloats (l : list float)
| FFloat (x : option float)
| FInt (x : option Z)
| FStr (x : option string).

Definition asdict (m : TorchBenchModelMetrics) : list (string * field_value) :=
  [ ("latencies", FFloats (latencies m));
    ("throughputs", FFloats (throughputs m));
    ("accuracy", FStr (accuracy m));
    ("cpu_peak_mem", FFloat (cpu_peak_mem m));
    ("gpu_peak_mem", FFloat (gpu_peak_mem m));
    ("ttfb", FFloat (ttfb m));
    ("pt2_compilation_time", FFloat (pt2_compilation_time m));
    ("pt2_graph_breaks", FFloat (pt2_graph_breaks m));
    ("model_flops", FInt (model_flops m));
    ("error_msg", FStr (error_msg m)) ].

(** [run_config] without [as_dict]: the record it ends with.  The calls to
    [get_model_test_metrics] take its defaults. *)
Definition run_config_metrics (config : TorchBenchModelConfig) (dryrun : bool)
  : M world TorchBenchModelMetrics :=
  print ("Running config " ++ repr_config O config ++ " ...") "" ;;;
  let metrics := empty_metrics in
  if dryrun
  then print "[skip_by_dryrun]" newline ;;; ret metrics
  else
    let required_metrics := Metrics.metrics config in
    ra <- (if mem "accuracy" required_metrics
           then accuracy <- get_model_accuracy config true ;;
                required_metrics <- lift (list_remove "accuracy" required_metrics) ;;
                ret (required_metrics, Some accuracy)
           else ret (required_metrics, None)) ;;
    let required_metrics := fst ra in
    let accuracy := snd ra in
    metrics <-
      (match required_metrics with
       | [] => ret metrics
       | _ :: _ =>
           emit (EvLoad true config) ;;;
           get_model_test_metrics (load_model_isolated O config)
             required_metrics "" "nvml" WARMUP_ROUNDS BENCHMARK_ITERS
       end) ;;
    metrics <-
      (if mem "accuracy" required_metrics
       then ret (set_accuracy metrics accuracy)
       else ret metrics) ;;
    print "[done]" newline ;;;
    ret metrics.

(** [run_config]: the record, or its mapping when [as_dict] is set *)
Definition run_config (config : TorchBenchModelConfig) (as_dict dryrun : bool)
  : M world (TorchBenchModelMetrics + list (string * field_value)) :=
  metrics <- run_config_metrics config dryrun ;;
  ret (if as_dict then inr (asdict metrics) else inl metrics).

(** *** Reading the log *)

(** the latency, in milliseconds, between two clock readings *)
Definition latency_ms (t0 t1 : Z) : float :=
  (SF2Prim (binary_normalize prec emax (t1 - t0) 0 false)
   / NANOSECONDS_PER_MILLISECONDS)%float.

(** the latency of the [i]-th timed iteration of a loop that starts when
    [c] readings of the clock have been made *)
Definition iteration_latency (c i : nat) : float :=
  latency_ms (reading (c + 2 * i)) (reading (c + 2 * i + 1)).

End WithOracle.

Definition is_invoke (e : event) : bool :=
  match e with EvInvoke => true | _ => false end.

(** how many times the callback is entered in a stretch of the log *)
Definition invocations (l : list event) : nat :=
  List.length (filter is_invoke l).

(** an event of the measured work: the callback or a device barrier *)
Definition is_work (e : event) : bool :=
  match e with EvInvoke | EvSync => true | _ => false end.

(** a stretch of the log made of measured work only *)
Definition work_only (l : list event) : Prop :=
  forallb is_work l = true.

(** [w'] is [w] after the events [l], [dc] more clock readings and [di]
    more callback calls, with the monitor as it was *)
Definition advances (w w' : world) (l : list event) (dc di : nat) : Prop :=
  log w' = (log w ++ l)%list /\
  n_clock w' = (n_clock w + dc)%nat /\
  n_invoke w' = (n_invoke w + di)%nat /\
  monitor_running w' = monitor_running w.

End Metrics.

(** ** Sample inputs used by the examples below *)
Module Samples.

Open Scope string_scope.
Open Scope Z_scope.

(** A stand-in for the library and the directory in the examples.  It
    knows the two pattern texts used there, [foo.*] and [a]: such a pattern
    matches at the start of a name exactly when the name begins with [foo],
    with [a], and a compiled pattern is kept as that beginning.  It knows
    one directory, [out], holding [entries]. *)
Definition listing_of (entries : list string) : UploadS3Csv.system :=
  {| UploadS3Csv.pattern := string;
     UploadS3Csv.re_compile :=
       fun text => if String.eqb text "foo.*" then Ok "foo"
                   else if String.eqb text "a" then Ok "a"
                   else Raise PatternError;
     UploadS3Csv.pattern_match := fun p name => starts_with p name;
     UploadS3Csv.listdir :=
       fun path => if String.eqb path "out" then Ok entries
                   else Raise FileNotFoundError |}.

(** a CI environment where only the run id is set *)
Definition ci_env : TorchaoUpload.environment :=
  {| TorchaoUpload.environ :=
       fun n => if String.eqb n "WORKFLOW_RUN_ID" then Some "77" else None;
     TorchaoUpload.torchao_version := "0.1" |}.

Definition perf_row : TorchaoUpload.row :=
  [("name", TorchaoUpload.PStr "resnet50");
   ("speedup", TorchaoUpload.PStr "1.2")].

(** one file, [torchbench.csv], holding one row *)
Definition one_file : TorchaoUpload.filesystem :=
  fun p => if String.eqb p "torchbench.csv" then Some [perf_row] else None.

(** an in-process model on the host, batch size 8 *)
Definition host_model : Metrics.model :=
  {| Metrics.kind := Metrics.KBenchmarkModel;
     Metrics.model_device := "cpu";
     Metrics.model_batch_size := 8;
     Metrics.worker_pid := 0;
     Metrics.attr_accuracy := "pass";
     Metrics.attr_ttfb := Some 1.5%float;
     Metrics.attr_pt2_compilation_time := None;
     Metrics.attr_pt2_graph_breaks := Some 3%float |}.

(** an isolated model on an accelerator *)
Definition cuda_task : Metrics.model :=
  {| Metrics.kind := Metrics.KModelTask;
     Metrics.model_device := "cuda";
     Metrics.model_batch_size := 8;
     Metrics.worker_pid := 4242;
     Metrics.attr_accuracy := "pass";
     Metrics.attr_ttfb := Some 1.5%float;
     Metrics.attr_pt2_compilation_time := None;
     Metrics.attr_pt2_graph_breaks := Some 3%float |}.

(** A calm run: the callback never raises; the [k]-th clock reading is
    [k * k] milliseconds, so successive readings are 1, 3, 5, ... ms apart. *)
Definition calm : Metrics.oracle :=
  {| Metrics.clock := fun k => 1000000 * Z.of_nat k * Z.of_nat k;
     Metrics.func_raises := fun _ => false;
     Metrics.getpid := 1;
     Metrics.calculate_cpu_peak_mem := Some 10%float;
     Metrics.calculate_gpu_peak_mem := (Some "0", Some 20%float);
     Metrics.flop_counts_global := [("mm", 5); ("add", 7)];
     Metrics.load_model := fun _ => host_model;
     Metrics.load_model_isolated := fun _ => cuda_task;
     Metrics.repr_config := fun c => Metrics.name c |}.

(** A slow run: 20 ms between successive clock readings *)
Definition slow : Metrics.oracle :=
  {| Metrics.clock := fun k => 20000000 * Z.of_nat k;
     Metrics.func_raises := fun _ => false;
     Metrics.getpid := 1;
     Metrics.calculate_cpu_peak_mem := Some 10%float;
     Metrics.calculate_gpu_peak_mem := (Some "0", Some 20%float);
     Metrics.flop_counts_global := [("mm", 5); ("add", 7)];
     Metrics.load_model := fun _ => host_model;
     Metrics.load_model_isolated := fun _ => cuda_task;
     Metrics.repr_config := fun c => Metrics.name c |}.

(** A run whose second callback call raises (the first is the probe of
    [get_peak_memory]) *)
Definition second_call_raises : Metrics.oracle :=
  {| Metrics.clock := fun k => 20000000 * Z.of_nat k;
     Metrics.func_raises := fun k => Nat.eqb k 1;
     Metrics.getpid := 1;
     Metrics.calculate_cpu_peak_mem := Some 10%float;
     Metrics.calculate_gpu_peak_mem := (Some "0", Some 20%float);
     Metrics.flop_counts_global := [];
     Metrics.load_model := fun _ => host_model;
     Metrics.load_model_isolated := fun _ => cuda_task;
     Metrics.repr_config := fun c => Metrics.name c |}.

(** the world before anything ran *)
Definition fresh : Metrics.world :=
  {| Metrics.n_clock := 0; Metrics.n_invoke := 0;
     Metrics.monitor_running := false; Metrics.log := [] |}.

Definition accuracy_only : Metrics.TorchBenchModelConfig :=
  {| Metrics.name := "resnet50"; Metrics.extra_args := [];
     Metrics.metrics := ["accuracy"] |}.

Definition accuracy_and_latencies : Metrics.TorchBenchModelConfig :=
  {| Metrics.name := "resnet50"; Metrics.extra_args := [];
     Metrics.metrics := ["latencies"; "accuracy"] |}.

End Samples.

(** ** The script part of scripts/userbenchmark/upload_s3_csv.py *)
Module UploadS3Script.

Import UploadS3Csv.
Open Scope string_scope.
Open Scope py_scope.

(** *** [add_path]; the state is [sys.path] *)

(** [__enter__]: [sys.path.insert(0, self.path)] *)
Definition add_path_enter (path : string) : M (list string) unit :=
  fun sys_path => (Ok tt, path :: sys_path).

(** [__exit__]: [sys.path.remove(self.path)], a [ValueError] passed over.
    It returns [None], so an exception of the block goes on. *)
Definition add_path_exit (path : string) : M (list string) unit :=
  fun sys_path =>
    match list_remove path sys_path with
    | Ok sys_path' => (Ok tt, sys_path')
    | Raise _ => (Ok tt, sys_path)
    end.

(** [with add_path(path): body] *)
Definition with_add_path {A} (path : string) (body : M (list string) A)
  : M (list string) A :=
  add_path_enter path ;;; finally body (add_path_exit path).

(** *** [upload_s3] and the loop of the script *)

(** [Path(upload_path).joinpath(file)] for a directory entry [file], by its
    two parts *)
Record Path : Type := { parent : string; entry : string }.

(** One call of [S3Client(bucket, object).upload_file(prefix, file_path)] *)
Record upload_call : Type := {
  call_bucket : string;
  call_object : string;
  call_prefix : string;
  call_file : Path
}.

(** The storage client, which is not part of these files: the bucket it is
    given, and whether its [k]-th transfer raises, and what *)
Record s3 : Type := {
  USERBENCHMARK_S3_BUCKET : string;
  transfer_error : nat -> option exn
}.

Record remote : Type := {
  attempts : nat;                 (* transfers started so far *)
  uploaded : list upload_call     (* transfers done, oldest first *)
}.

Definition upload_file (S : s3) (c : upload_call) : M remote unit :=
  fun r =>
    match transfer_error S (attempts r) with
    | Some e => (Raise e, {| attempts := Datatypes.S (attempts r);
                             uploaded := uploaded r |})
    | None => (Ok tt, {| attempts := Datatypes.S (attempts r);
                         uploaded := (uploaded r ++ [c])%list |})
    end.

Definition upload_s3 (S : s3) (s3_object ub_name workflow_run_id
  workflow_run_attempt : string) (file_path : Path) : M remote unit :=
  let prefix := ub_name ++ "/" ++ workflow_run_id ++ "/" ++ workflow_run_attempt in
  upload_file S {| call_bucket := USERBENCHMARK_S3_BUCKET S;
                   call_object := s3_object;
                   call_prefix := prefix;
                   call_file := file_path |}.

(** The body under [if __name__ == "__main__"], after the arguments are
    parsed *)
Definition main (Sys : system) (S : s3) (s3_prefix userbenchmark
  workflow_run_id workflow_run_attempt upload_path match_filename : string)
  : M remote unit :=
  files_to_upload <- lift (_get_files_to_upload Sys upload_path match_filename) ;;
  foldM (fun (_ : unit) file =>
           let file_path := {| parent := upload_path; entry := file |} in
           upload_s3 S s3_prefix userbenchmark workflow_run_id
             workflow_run_attempt file_path)
        files_to_upload tt.

(** the transfer the script asks for the entry [file]: the object
    [s3_prefix] of the bucket, under
    [userbenchmark/workflow_run_id/workflow_run_attempt] *)
Definition transfer_of (S : s3) (s3_prefix userbenchmark workflow_run_id
  workflow_run_attempt upload_path file : string) : upload_call :=
  {| call_bucket := USERBENCHMARK_S3_BUCKET S;
     call_object := s3_prefix;
     call_prefix := userbenchmark ++ "/" ++ workflow_run_id ++ "/"
                    ++ workflow_run_attempt;
     call_file := {| parent := upload_path; entry := file |} |}.

End UploadS3Script.

(** ** The script part of userbenchmark/torchao/upload.py *)
Module TorchaoScript.

Import TorchaoUpload.
Open Scope string_scope.

(** what a [for] loop over a [str] yields: its characters, as strings *)
Fixpoint chars (s : string) : list string :=
  match s with
  | EmptyString => []
  | String c s' => String c EmptyString :: chars s'
  end.

(** The body under [if __name__ == "__main__"]: [args.test_file] is a
    string, or [None] when the flag is not given, and goes to
    [post_ci_process] as it is. *)
Definition main (E : environment) (test_file : option string)
  : M filesystem unit :=
  match test_file with
  | Some path => post_ci_process E (chars path)
  | None => raise TypeError      (* a loop over [None] *)
  end.

End TorchaoScript.

(** ** Further vocabulary for the measurement functions *)
Module MetricsObs.

Import Metrics.
Open Scope string_scope.

(** what one timed iteration of [get_latencies] logs *)
Definition timed_events (device : string) : list event :=
  if String.eqb device "cuda" then [EvSync; EvInvoke; EvSync] else [EvInvoke].

(** the metric names [get_model_test_metrics] looks for *)
Definition measured_names : list string :=
  ["latencies"; "throughputs"; "cpu_peak_mem"; "gpu_peak_mem";
   "pt2_compilation_time"; "pt2_graph_breaks"; "model_flops"; "ttfb"].

(** every exception [m] can raise satisfies [P] *)
Definition raises_only {S A} (P : exn -> Prop) (m : M S A) : Prop :=
  forall s, match fst (m s) with
            | Ok _ => True
            | Raise e => P e
            end.

(** the exceptions of a measurement: the callback's, or the arithmetic of
    the throughputs *)
Definition measurement_exn (e : exn) : Prop :=
  e = ModelError \/ e = ZeroDivisionError \/ e = OverflowError.

Definition is_load (e : event) : bool :=
  match e with EvLoad _ _ => true | _ => false end.

End MetricsObs.

(** ** More sample inputs *)
Module MoreSamples.

Open Scope string_scope.
Open Scope Z_scope.

(** a client whose third transfer fails *)
Definition third_fails : UploadS3Script.s3 :=
  {| UploadS3Script.USERBENCHMARK_S3_BUCKET := "ossci-metrics";
     UploadS3Script.transfer_error :=
       fun k => if Nat.eqb k 2 then Some RuntimeError else None |}.

Definition reliable : UploadS3Script.s3 :=
  {| UploadS3Script.USERBENCHMARK_S3_BUCKET := "ossci-metrics";
     UploadS3Script.transfer_error := fun _ => None |}.

Definition nothing_sent : UploadS3Script.remote :=
  {| UploadS3Script.attempts := 0; UploadS3Script.uploaded := [] |}.

(** a run whose callback raises on its fourth call *)
Definition fourth_call_raises : Metrics.oracle :=
  {| Metrics.clock := fun k => 1000000 * Z.of_nat k;
     Metrics.func_raises := fun k => Nat.eqb k 3;
     Metrics.getpid := 1;
     Metrics.calculate_cpu_peak_mem := Some 10%float;
     Metrics.calculate_gpu_peak_mem := (Some "0", Some 20%float);
     Metrics.flop_counts_global := [("mm", 5)];
     Metrics.load_model := fun _ => Samples.host_model;
     Metrics.load_model_isolated := fun _ => Samples.cuda_task;
     Metrics.repr_config := fun c => Metrics.name c |}.

(** a run whose callback raises on its first call *)
Definition first_call_raises : Metrics.oracle :=
  {| Metrics.clock := fun k => 1000000 * Z.of_nat k;
     Metrics.func_raises := fun k => Nat.eqb k 0;
     Metrics.getpid := 1;
     Metrics.calculate_cpu_peak_mem := Some 10%float;
     Metrics.calculate_gpu_peak_mem := (Some "0", Some 20%float);
     Metrics.flop_counts_global := [("mm", 5)];
     Metrics.load_model := fun _ => Samples.host_model;
     Metrics.load_model_isolated := fun _ => Samples.cuda_task;
     Metrics.repr_config := fun c => Metrics.name c |}.

(** a run on a clock that stands still *)
Definition frozen_clock : Metrics.oracle :=
  {| Metrics.clock := fun _ => 42;
     Metrics.func_raises := fun _ => false;
     Metrics.getpid := 1;
     Metrics.calculate_cpu_peak_mem := Some 10%float;
     Metrics.calculate_gpu_peak_mem := (Some "0", Some 20%float);
     Metrics.flop_counts_global := [];
     Metrics.load_model := fun _ => Samples.host_model;
     Metrics.load_model_isolated := fun _ => Samples.cuda_task;
     Metrics.repr_config := fun c => Metrics.name c |}.

Definition latencies_only : Metrics.TorchBenchModelConfig :=
  {| Metrics.name := "resnet50"; Metrics.extra_args := ["--bs"; "8"];
     Metrics.metrics := ["latencies"] |}.

End MoreSamples.

(** * Properties *)

(** ** Strings and lists *)
Module PyFacts.

Lemma starts_with_spec (p s : string) :
  starts_with p s = true <-> exists q, s = (p ++ q)%string.
Proof.
  revert s; induction p as [|a p IH]; intros s; simpl.
  - split; [intros _; now exists s | reflexivity].
  - destruct s as [|b s].
    + split; [discriminate | intros [q Hq]; discriminate].
    + rewrite andb_true_iff, Ascii.eqb_eq, IH. split.
      * intros [-> [q ->]]. now exists q.
      * intros [q Hq]. injection Hq as -> ->. split; [reflexivity | now exists q].
Qed.

(** [str_in] decides the substring relation *)
Lemma str_in_spec (sub s : string) :
  str_in sub s = true <-> contains sub s.
Proof.
  unfold contains. split.
  - induction s as [|c s IH]; simpl; rewrite orb_true_iff.
    + intros [H | H]; [| discriminate].
      apply starts_with_spec in H as [q Hq]. now exists EmptyString, q.
    + intros [H | H].
      * apply starts_with_spec in H as [q Hq]. now exists EmptyString, q.
      * destruct (IH H) as (p & q & ->). now exists (String c p), q.
  - intros (p & q & ->). induction p as [|c p IH].
    + simpl. assert (H : starts_with sub (sub ++ q) = true)
        by (apply starts_with_spec; now exists q).
      destruct (sub ++ q)%string; simpl in *; rewrite H; reflexivity.
    + simpl. rewrite IH. apply orb_true_r.
Qed.

Lemma mem_In (x : string) (l : list string) : mem x l = true <-> In x l.
Proof.
  unfold mem. rewrite existsb_exists. split.
  - intros (y & Hy & E). apply String.eqb_eq in E. now subst.
  - intros H. exists x. split; [assumption | apply String.eqb_refl].
Qed.

Lemma mem_false (x : string) (l : list string) : mem x l = false <-> ~ In x l.
Proof.
  rewrite <- mem_In. destruct (mem x l); split; congruence.
Qed.

End PyFacts.

(** ** [_get_files_to_upload] *)
Module UploadS3CsvFacts.

Import UploadS3Csv PyFacts.


(** a failure of [re.compile] or of [os.listdir] is the function's, the
    pattern's first *)
Lemma get_files_to_upload_raises (Sys : system)
  (file_path match_filename : string) :
  (forall e, re_compile Sys match_filename = Raise e ->
             _get_files_to_upload Sys file_path match_filename = Raise e) /\
  (forall p e, re_compile Sys match_filename = Ok p ->
               listdir Sys file_path = Raise e ->
               _get_files_to_upload Sys file_path match_filename = Raise e).
Proof.
  unfold _get_files_to_upload. split.
  - intros e ->. reflexivity.
  - intros p e -> ->. reflexivity.
Qed.



End UploadS3CsvFacts.

(** ** [_get_model_set] and [post_ci_process] *)
Module TorchaoUploadFacts.

Import TorchaoUpload PyFacts.
Open Scope string_scope.

Lemma str_in_false (sub s : string) : str_in sub s = false <-> ~ contains sub s.
Proof.
  rewrite <- str_in_spec. destruct (str_in sub s); split; congruence.
Qed.

(** C4, as the claim has it, fails: a name with [timm] in it but not
    [timm_models] is not recognised. *)
Lemma get_model_set_timm_counterexample :
  contains "timm" "timm.csv" /\
  _get_model_set "timm.csv" = Raise RuntimeError.
Proof.
  split; [exists "", ".csv"; reflexivity | reflexivity].
Qed.

(** C4, amended: [_get_model_set] answers ["timm"] for a name containing
    [timm_models]; failing that, ["huggingface"] for a name containing
    [huggingface]; failing that, ["torchbench"] for a name containing
    [torchbench]; and raises for a name containing none of the three. *)
Theorem get_model_set_by_substring (filename : string) :
  (contains "timm_models" filename -> _get_model_set filename = Ok "timm") /\
  (~ contains "timm_models" filename -> contains "huggingface" filename ->
   _get_model_set filename = Ok "huggingface") /\
  (~ contains "timm_models" filename -> ~ contains "huggingface" filename ->
   contains "torchbench" filename ->
   _get_model_set filename = Ok "torchbench") /\
  (~ contains "timm_models" filename -> ~ contains "huggingface" filename ->
   ~ contains "torchbench" filename ->
   _get_model_set filename = Raise RuntimeError).
Proof.
  unfold _get_model_set.
  repeat split; intros;
    repeat match goal with
      | H : contains _ _ |- _ => apply str_in_spec in H; rewrite H
      | H : ~ contains _ _ |- _ => apply str_in_false in H; rewrite H
      end; reflexivity.
Qed.

(** Every branch of [_get_model_set] is taken by some name. *)
Example get_model_set_branches :
  _get_model_set "timm_models_perf.csv" = Ok "timm" /\
  _get_model_set "out/huggingface_torchbench.csv" = Ok "huggingface" /\
  _get_model_set "torchbench.csv" = Ok "torchbench" /\
  _get_model_set "resnet.csv" = Raise RuntimeError.
Proof. repeat split. Qed.

(** *** The decorated rows *)

Lemma dict_get_set (d : row) (k k' : string) (v : pyval) :
  dict_get (dict_set d k v) k' =
  if String.eqb k' k then Some v else dict_get d k'.
Proof.
  induction d as [|[k0 v0] d IH]; simpl.
  - reflexivity.
  - destruct (String.eqb_spec k k0) as [-> | Hk]; simpl.
    + destruct (String.eqb_spec k' k0); reflexivity.
    + rewrite IH. destruct (String.eqb_spec k' k0) as [-> | Hk'].
      * destruct (String.eqb_spec k0 k); [congruence | reflexivity].
      * reflexivity.
Qed.

(** [row.update] leaves the columns it does not name as they were *)
Lemma dict_update_other (kvs d : row) (k : string) :
  ~ In k (dict_keys kvs) -> dict_get (dict_update d kvs) k = dict_get d k.
Proof.
  unfold dict_update. revert d.
  induction kvs as [|[k0 v0] kvs IH]; intros d Hk; simpl.
  - reflexivity.
  - simpl in Hk. rewrite IH by tauto. rewrite dict_get_set.
    destruct (String.eqb_spec k k0); [subst; tauto | reflexivity].
Qed.

(** [row.update] sets a column it names once to the value it gives *)
Lemma dict_update_named (kvs d : row) (k : string) (v : pyval) :
  NoDup (dict_keys kvs) -> In (k, v) kvs ->
  dict_get (dict_update d kvs) k = Some v.
Proof.
  unfold dict_update. revert d.
  induction kvs as [|[k0 v0] kvs IH]; intros d Hn Hi; simpl.
  - contradiction.
  - simpl in Hn. inversion Hn as [|? ? Hnot Hn']; subst.
    destruct Hi as [E | Hi].
    + injection E as -> ->.
      change (fold_left _ kvs ?x) with (dict_update x kvs).
      rewrite dict_update_other by assumption.
      rewrite dict_get_set, String.eqb_refl. reflexivity.
    + apply IH; assumption.
Qed.

Lemma metadata_keys (E : environment) (path modelset : string) :
  dict_keys (metadata E path modelset) =
  ["workflow_id"; "run_attempt"; "test_name"; "runner"; "job_id";
   "filename"; "head_repo"; "head_branch"; "head_sha"].
Proof. reflexivity. Qed.

Lemma metadata_keys_NoDup (E : environment) (path modelset : string) :
  NoDup (dict_keys (metadata E path modelset)).
Proof.
  rewrite metadata_keys.
  repeat (constructor; [simpl; intuition discriminate |]). constructor.
Qed.

(** X7: every row collected in [perf_stats] carries the nine metadata
    columns with the values of the run, and keeps the value of each of its
    other columns; there are as many rows as were read. *)
Lemma decorate_rows (E : environment) (path modelset : string)
  (rows : list row) :
  List.length (decorate E path modelset rows) = List.length rows /\
  forall i r, nth_error rows i = Some r ->
    exists r', nth_error (decorate E path modelset rows) i = Some r' /\
      (forall k v, In (k, v) (metadata E path modelset) ->
                   dict_get r' k = Some v) /\
      (forall k, ~ In k (dict_keys (metadata E path modelset)) ->
                 dict_get r' k = dict_get r k).
Proof.
  unfold decorate. split; [apply length_map |].
  intros i r Hr. eexists. split.
  - rewrite nth_error_map, Hr. reflexivity.
  - split.
    + intros k v Hi. apply dict_update_named; [apply metadata_keys_NoDup | exact Hi].
    + intros k Hk. now apply dict_update_other.
Qed.

(** *** Writing them back *)

(** One turn of the loop never completes, and never touches the files:
    an unknown category, a missing file, or the writer's construction
    stops it. *)
Lemma process_one_outcome (E : environment) (path : string) (fs : filesystem) :
  process_one E path fs =
  match _get_model_set path with
  | Raise e => (Raise e, fs)
  | Ok _ => match fs path with
            | None => (Raise FileNotFoundError, fs)
            | Some _ => (Raise TypeError, fs)
            end
  end.
Proof.
  unfold process_one, bind, lift, open, read_rows, new_DictWriter, raise.
  destruct (_get_model_set path); [| reflexivity].
  destruct (fs path) eqn:F; [| reflexivity].
  simpl. rewrite F. simpl. rewrite F. reflexivity.
Qed.

Lemma post_ci_process_keeps_files (E : environment) (output_files : list string)
  (fs : filesystem) :
  snd (post_ci_process E output_files fs) = fs.
Proof.
  unfold post_ci_process. destruct output_files as [|path rest]; simpl.
  - reflexivity.
  - unfold bind. rewrite process_one_outcome.
    destruct (_get_model_set path); [destruct (fs path) |]; reflexivity.
Qed.

(** A file object opened as the source opens it refuses writes, so passing
    the field names to the writer would not be enough. *)
Lemma write_through_read_handle (path : string) (names : list string)
  (r : row) (fs : filesystem) (f : file) (fs' : filesystem) :
  open path ReadMode fs = (Ok f, fs') ->
  let w := {| w_file := f; fieldnames := names |} in
  writeheader w fs' = (Raise UnsupportedOperation, fs') /\
  writerow w r fs' = (Raise UnsupportedOperation, fs').
Proof.
  unfold open. destruct (fs path); intros H; inversion H; subst.
  split; reflexivity.
Qed.

(** C2 (the code departs from the claim): on a file of a known category
    holding one row, [post_ci_process] raises while setting up the writer
    and the file still holds the undecorated row. *)
Theorem post_ci_process_does_not_rewrite :
  _get_model_set "torchbench.csv" = Ok "torchbench" /\
  fst (post_ci_process Samples.ci_env ["torchbench.csv"] Samples.one_file)
    = Raise TypeError /\
  snd (post_ci_process Samples.ci_env ["torchbench.csv"] Samples.one_file)
    "torchbench.csv" = Some [Samples.perf_row].
Proof. repeat split. Qed.

End TorchaoUploadFacts.

(** ** The measurement functions *)
Module MetricsFacts.

Import Metrics PyFacts.
Open Scope string_scope.
Open Scope Z_scope.

(** *** The monad *)

Lemma bind_ok {S A B} {m : M S A} (k : A -> M S B) {s s1 : S} {a : A} :
  m s = (Ok a, s1) -> bind m k s = k a s1.
Proof. unfold bind. intros ->. reflexivity. Qed.

Lemma bind_raise {S A B} {m : M S A} (k : A -> M S B) {s s1 : S} {e : exn} :
  m s = (Raise e, s1) -> bind m k s = (Raise e, s1).
Proof. unfold bind. intros ->. reflexivity. Qed.

Lemma bind_ok_inv {S A B} (m : M S A) (k : A -> M S B) (s s' : S) (b : B) :
  bind m k s = (Ok b, s') ->
  exists a s1, m s = (Ok a, s1) /\ k a s1 = (Ok b, s').
Proof.
  unfold bind. destruct (m s) as [[a | e] s1]; intros H.
  - now exists a, s1.
  - discriminate.
Qed.

(** *** Numbers *)

Lemma int64_range (z : Z) : - 2 ^ 63 <= int64 z < 2 ^ 63.
Proof.
  unfold int64.
  pose proof (Z.mod_pos_bound (z + 2 ^ 63) (2 ^ 64) ltac:(lia)). lia.
Qed.

Lemma FLOAT_OVERFLOW_large : 2 ^ 64 < FLOAT_OVERFLOW.
Proof. reflexivity. Qed.

(** the difference of two clock readings always converts and divides *)
Lemma truediv_readings (O : oracle) (i j : nat) :
  truediv (reading O j - reading O i) NANOSECONDS_PER_MILLISECONDS
  = Ok (latency_ms (reading O i) (reading O j)).
Proof.
  unfold truediv, float_of_int, latency_ms, reading.
  pose proof (int64_range (clock O i)). pose proof (int64_range (clock O j)).
  pose proof FLOAT_OVERFLOW_large.
  generalize dependent FLOAT_OVERFLOW. intros bound Hb.
  destruct (Z.ltb_spec (Z.abs (int64 (clock O j) - int64 (clock O i))) bound);
    [reflexivity | lia].
Qed.

(** *** Steps of the world *)

Lemma advances_refl (w : world) : advances w w [] 0 0.
Proof.
  unfold advances. rewrite app_nil_r, !Nat.add_0_r. auto.
Qed.

Lemma advances_trans {w w1 w2 : world} {l1 l2 : list event}
  {c1 c2 i1 i2 : nat} :
  advances w w1 l1 c1 i1 -> advances w1 w2 l2 c2 i2 ->
  advances w w2 (l1 ++ l2) (c1 + c2) (i1 + i2).
Proof.
  unfold advances. intros (L1 & C1 & I1 & M1) (L2 & C2 & I2 & M2).
  rewrite L2, L1, C2, C1, I2, I1, M2, M1, app_assoc, !Nat.add_assoc. auto.
Qed.

Lemma invocations_app (l1 l2 : list event) :
  invocations (l1 ++ l2) = (invocations l1 + invocations l2)%nat.
Proof. unfold invocations. now rewrite filter_app, length_app. Qed.

Lemma work_only_app (l1 l2 : list event) :
  work_only (l1 ++ l2) <-> work_only l1 /\ work_only l2.
Proof. unfold work_only. now rewrite forallb_app, andb_true_iff. Qed.

Section Steps.

Variable O : oracle.

Lemma emit_step (e : event) (w : world) :
  exists w', emit e w = (Ok tt, w') /\ advances w w' [e] 0 0.
Proof.
  eexists. split; [reflexivity |]. unfold advances; simpl.
  rewrite !Nat.add_0_r. auto.
Qed.

Lemma time_ns_step (w : world) :
  exists w', time_ns O w = (Ok (reading O (n_clock w)), w') /\
             advances w w' [] 1 0.
Proof.
  eexists. split; [reflexivity |]. unfold advances; simpl.
  rewrite app_nil_r, Nat.add_0_r, Nat.add_1_r. auto.
Qed.

(** a call of the callback is logged, and raises or not as the oracle says *)
Lemma invoke_step (w : world) :
  exists w', invoke O w =
             (if func_raises O (n_invoke w) then Raise ModelError else Ok tt, w')
             /\ advances w w' [EvInvoke] 0 1.
Proof.
  unfold invoke. eexists. split.
  - destruct (func_raises O (n_invoke w)); reflexivity.
  - unfold advances; simpl. rewrite Nat.add_0_r, Nat.add_1_r. auto.
Qed.

(** [work_func] enters the callback once, whatever the device *)
Lemma work_func_step (device : string) (w : world) :
  exists w' l,
    work_func (invoke O) device w =
    (if func_raises O (n_invoke w) then Raise ModelError else Ok tt, w') /\
    advances w w' l 0 1 /\ work_only l /\ invocations l = 1%nat.
Proof.
  unfold work_func.
  destruct (invoke_step w) as (w1 & E1 & A1).
  destruct (String.eqb device "cuda").
  - destruct (emit_step EvSync w) as (w0 & E0 & A0).
    unfold synchronize. rewrite (bind_ok _ E0).
    destruct (invoke_step w0) as (w2 & E2 & A2).
    assert (N : n_invoke w0 = n_invoke w)
      by (destruct A0 as (_ & _ & -> & _); lia).
    rewrite N in E2.
    destruct (func_raises O (n_invoke w)).
    + rewrite (bind_raise _ E2). exists w2, [EvSync; EvInvoke].
      split; [reflexivity |]. split; [| split; reflexivity].
      apply (advances_trans A0 A2).
    + rewrite (bind_ok _ E2).
      destruct (emit_step EvSync w2) as (w3 & E3 & A3). rewrite E3.
      exists w3, [EvSync; EvInvoke; EvSync].
      split; [reflexivity |]. split; [| split; reflexivity].
      apply (advances_trans (advances_trans A0 A2) A3).
  - exists w1, [EvInvoke]. split; [exact E1 |].
    split; [exact A1 | split; reflexivity].
Qed.

(** The warm-up loop of [get_latencies] *)
Lemma warmup_loop (k : nat) (w : world) :
  (forall i, (i < k)%nat -> func_raises O (n_invoke w + i) = false) ->
  exists w' l,
    for_range k (fun _ => invoke O) tt w = (Ok tt, w') /\
    advances w w' l 0 k /\ invocations l = k.
Proof.
  revert w; induction k as [|k IH]; intros w H.
  - exists w, []. split; [reflexivity |]. split; [apply advances_refl | reflexivity].
  - destruct (invoke_step w) as (w1 & E1 & A1).
    rewrite <- (Nat.add_0_r (n_invoke w)), H in E1 by lia.
    destruct (IH w1) as (w2 & l & E2 & A2 & N2).
    { intros i Hi. destruct A1 as (_ & _ & -> & _).
      rewrite <- Nat.add_assoc. apply H. lia. }
    exists w2, ([EvInvoke] ++ l)%list. split.
    + simpl for_range. rewrite (bind_ok _ E1). exact E2.
    + split; [apply (advances_trans A1 A2) |].
      rewrite invocations_app, N2. reflexivity.
Qed.

(** The timed block of [get_latencies] reads the clock twice around one
    call of the callback *)
Lemma timed_block (device : string) (w : world) :
  func_raises O (n_invoke w) = false ->
  exists w' l,
    (if String.eqb device "cuda"
     then bind synchronize (fun _ =>
          bind (time_ns O) (fun t0 =>
          bind (invoke O) (fun _ =>
          bind synchronize (fun _ =>
          bind (time_ns O) (fun t1 => ret (t0, t1))))))
     else bind (time_ns O) (fun t0 =>
          bind (invoke O) (fun _ =>
          bind (time_ns O) (fun t1 => ret (t0, t1))))) w
    = (Ok (reading O (n_clock w), reading O (S (n_clock w))), w')
    /\ advances w w' l 2 1 /\ invocations l = 1%nat.
Proof.
  intros H. unfold synchronize.
  destruct (String.eqb device "cuda").
  - destruct (emit_step EvSync w) as (w1 & E1 & A1).
    destruct (time_ns_step w1) as (w2 & E2 & A2).
    destruct (invoke_step w2) as (w3 & E3 & A3).
    destruct (emit_step EvSync w3) as (w4 & E4 & A4).
    destruct (time_ns_step w4) as (w5 & E5 & A5).
    pose proof (advances_trans A1 A2) as B2.
    pose proof (advances_trans B2 A3) as B3.
    pose proof (advances_trans B3 A4) as B4.
    pose proof (advances_trans B4 A5) as B5. simpl in B2, B3, B4, B5.
    assert (N2 : n_invoke w2 = n_invoke w)
      by (destruct B2 as (_ & _ & -> & _); lia).
    assert (C1 : n_clock w1 = n_clock w)
      by (destruct A1 as (_ & -> & _ & _); lia).
    assert (C4 : n_clock w4 = S (n_clock w))
      by (destruct B4 as (_ & -> & _ & _); lia).
    rewrite N2, H in E3. rewrite C1 in E2. rewrite C4 in E5.
    exists w5, [EvSync; EvInvoke; EvSync].
    split; [| split; [exact B5 | reflexivity]].
    rewrite (bind_ok _ E1), (bind_ok _ E2), (bind_ok _ E3),
      (bind_ok _ E4), (bind_ok _ E5). reflexivity.
  - destruct (time_ns_step w) as (w2 & E2 & A2).
    destruct (invoke_step w2) as (w3 & E3 & A3).
    destruct (time_ns_step w3) as (w5 & E5 & A5).
    pose proof (advances_trans A2 A3) as B3.
    pose proof (advances_trans B3 A5) as B5. simpl in B3, B5.
    assert (N2 : n_invoke w2 = n_invoke w)
      by (destruct A2 as (_ & _ & -> & _); lia).
    assert (C3 : n_clock w3 = S (n_clock w))
      by (destruct B3 as (_ & -> & _ & _); lia).
    rewrite N2, H in E3. rewrite C3 in E5.
    exists w5, [EvInvoke].
    split; [| split; [exact B5 | reflexivity]].
    rewrite (bind_ok _ E2), (bind_ok _ E3), (bind_ok _ E5).
    reflexivity.
Qed.

(** The measured loop of [get_latencies]: [n] more latencies, one per
    iteration, appended in the order the iterations run *)
Lemma measured_loop (device : string) (n : nat) (acc : list float) (w : world) :
  (forall i, (i < n)%nat -> func_raises O (n_invoke w + i) = false) ->
  exists w' l,
    for_range n
      (fun result_summary =>
         bind (if String.eqb device "cuda"
               then bind synchronize (fun _ =>
                    bind (time_ns O) (fun t0 =>
                    bind (invoke O) (fun _ =>
                    bind synchronize (fun _ =>
                    bind (time_ns O) (fun t1 => ret (t0, t1))))))
               else bind (time_ns O) (fun t0 =>
                    bind (invoke O) (fun _ =>
                    bind (time_ns O) (fun t1 => ret (t0, t1)))))
           (fun t =>
              bind (lift (truediv (snd t - fst t) NANOSECONDS_PER_MILLISECONDS))
                (fun latency => ret (result_summary ++ [latency])%list)))
      acc w
    = (Ok (acc ++ map (iteration_latency O (n_clock w)) (seq 0 n))%list, w')
    /\ advances w w' l (2 * n) n /\ invocations l = n.
Proof.
  revert acc w; induction n as [|n IH]; intros acc w H.
  - exists w, []. simpl. rewrite app_nil_r.
    split; [reflexivity |]. split; [apply advances_refl | reflexivity].
  - destruct (timed_block device w) as (w1 & l1 & E1 & A1 & N1).
    { rewrite <- (Nat.add_0_r (n_invoke w)). apply H. lia. }
    destruct (IH (acc ++ [iteration_latency O (n_clock w) 0])%list w1)
      as (w2 & l2 & E2 & A2 & N2).
    { intros i Hi. destruct A1 as (_ & _ & -> & _).
      rewrite <- Nat.add_assoc. apply H. lia. }
    exists w2, (l1 ++ l2)%list. split; [| split].
    + assert (L0 : latency_ms (reading O (n_clock w)) (reading O (S (n_clock w)))
                   = iteration_latency O (n_clock w) 0).
      { unfold iteration_latency.
        now rewrite Nat.mul_0_r, Nat.add_0_r, Nat.add_1_r. }
      simpl for_range. unfold bind at 1. unfold bind at 1. rewrite E1.
      unfold lift at 1. simpl fst; simpl snd. rewrite truediv_readings, L0.
      unfold bind at 1, ret at 1. rewrite E2.
      f_equal. f_equal. rewrite <- app_assoc. f_equal. simpl. f_equal.
      rewrite <- seq_shift, map_map. apply map_ext. intros i.
      unfold iteration_latency. destruct A1 as (_ & -> & _ & _).
      f_equal; f_equal; lia.
    + replace (2 * S n)%nat with (2 + 2 * n)%nat by lia.
      apply (advances_trans A1 A2).
    + rewrite invocations_app, N1, N2. reflexivity.
Qed.

(** C8: with a warm-up count [nwarmup] and an iteration count [num_iter],
    and a callback that returns from each of its calls, [get_latencies]
    calls the callback exactly [nwarmup + num_iter] times and returns
    exactly [num_iter] latencies, the [i]-th being that of the [i]-th timed
    iteration. *)
Theorem get_latencies_counts (device : string) (nwarmup num_iter : nat)
  (w : world) :
  (forall i, (i < nwarmup + num_iter)%nat ->
             func_raises O (n_invoke w + i) = false) ->
  exists lats w' l,
    get_latencies O (invoke O) device (Z.of_nat nwarmup) (Z.of_nat num_iter) w
    = (Ok lats, w') /\
    log w' = (log w ++ l)%list /\
    invocations l = (nwarmup + num_iter)%nat /\
    n_invoke w' = (n_invoke w + (nwarmup + num_iter))%nat /\
    List.length lats = num_iter /\
    forall i, (i < num_iter)%nat ->
              nth_error lats i = Some (iteration_latency O (n_clock w) i).
Proof.
  intros H. unfold get_latencies, range. rewrite !Nat2Z.id.
  destruct (warmup_loop nwarmup w) as (w1 & l1 & E1 & A1 & N1).
  { intros i Hi. apply H. lia. }
  destruct (measured_loop device num_iter [] w1) as (w2 & l2 & E2 & A2 & N2).
  { intros i Hi. destruct A1 as (_ & _ & -> & _).
    rewrite <- Nat.add_assoc. apply H. lia. }
  pose proof (advances_trans A1 A2) as (L & _ & I & _).
  destruct A1 as (_ & C1 & _ & _). rewrite Nat.add_0_r in C1. rewrite C1 in E2.
  eexists _, w2, (l1 ++ l2)%list.
  split; [rewrite (bind_ok _ E1); exact E2 |].
  split; [exact L |]. split; [now rewrite invocations_app, N1, N2 |].
  split; [exact I |]. simpl app.
  split; [now rewrite length_map, length_seq |].
  intros i Hi. rewrite nth_error_map, nth_error_seq.
  destruct (Nat.ltb_spec i num_iter); [reflexivity | lia].
Qed.

(** *** [get_peak_memory] *)

(** the filter on [metrics_needed] leaves nothing exactly when neither
    recognised name is in it *)
Lemma recognised_none (metrics_needed : list string) :
  filter (fun x => mem x ["cpu_peak_mem"; "gpu_peak_mem"]) metrics_needed = []
  <-> ~ In "cpu_peak_mem" metrics_needed /\ ~ In "gpu_peak_mem" metrics_needed.
Proof.
  set (f := fun x => mem x ["cpu_peak_mem"; "gpu_peak_mem"]).
  assert (Hf : forall x, f x = true <-> x = "cpu_peak_mem" \/ x = "gpu_peak_mem").
  { intros x. unfold f. rewrite mem_In. simpl. intuition congruence. }
  induction metrics_needed as [|x l IH]; simpl.
  - tauto.
  - destruct (f x) eqn:Fx.
    + apply Hf in Fx. split; [discriminate | intuition congruence].
    + assert (Hx : ~ (x = "cpu_peak_mem" \/ x = "gpu_peak_mem"))
        by (rewrite <- Hf; congruence).
      rewrite IH. intuition congruence.
Qed.

(** with no recognised name asked for, [get_peak_memory] stops at once *)
Lemma get_peak_memory_unrecognised (device : string) (num_iter : Z)
  (export_metrics_file : string) (metrics_needed : list string)
  (metrics_gpu_backend : string) (cpu_monitored_pid : option Z) (w : world) :
  ~ In "cpu_peak_mem" metrics_needed -> ~ In "gpu_peak_mem" metrics_needed ->
  get_peak_memory O (invoke O) device num_iter export_metrics_file
    metrics_needed metrics_gpu_backend cpu_monitored_pid w
  = (Raise ValueError, w).
Proof.
  intros Hc Hg.
  assert (F : filter (fun x => mem x ["cpu_peak_mem"; "gpu_peak_mem"])
                metrics_needed = [])
    by (apply recognised_none; tauto).
  unfold get_peak_memory. rewrite F. reflexivity.
Qed.

(** The loop over [work_func]: it logs measured work only, leaves clock and
    monitor alone, and either completes its [k] turns or stops at the first
    call that raises. *)
Lemma work_loop (device : string) (k : nat) (w : world) :
  exists r w' l j,
    for_range k (fun _ => work_func (invoke O) device) tt w = (r, w') /\
    advances w w' l 0 j /\ work_only l /\ invocations l = j /\
    (r = Ok tt /\ j = k \/
     r = Raise ModelError /\
     exists i, (i < k)%nat /\ func_raises O (n_invoke w + i) = true).
Proof.
  revert w; induction k as [|k IH]; intros w.
  - exists (Ok tt), w, [], 0%nat. split; [reflexivity |].
    split; [apply advances_refl |]. split; [reflexivity |].
    split; [reflexivity | now left].
  - destruct (work_func_step device w) as (w1 & l1 & E1 & A1 & W1 & N1).
    simpl for_range. destruct (func_raises O (n_invoke w)) eqn:R.
    + exists (Raise ModelError), w1, l1, 1%nat.
      split; [now rewrite (bind_raise _ E1) |].
      split; [exact A1 |]. split; [exact W1 |]. split; [exact N1 |].
      right. split; [reflexivity |]. exists 0%nat.
      rewrite Nat.add_0_r. split; [lia | exact R].
    + destruct (IH w1) as (r & w2 & l2 & j & E2 & A2 & W2 & N2 & Hr).
      exists r, w2, (l1 ++ l2)%list, (1 + j)%nat.
      split; [now rewrite (bind_ok _ E1) |].
      split; [apply (advances_trans A1 A2) |].
      split; [now apply work_only_app |].
      split; [now rewrite invocations_app, N1, N2 |].
      destruct Hr as [[-> ->] | [-> (i & Hi & Ri)]]; [now left | right].
      split; [reflexivity |]. exists (S i). split; [lia |].
      destruct A1 as (_ & _ & I1 & _). rewrite I1 in Ri.
      replace (n_invoke w + S i)%nat with (n_invoke w + 1 + i)%nat by lia.
      exact Ri.
Qed.

(** The three ways [get_peak_memory] can go once a recognised metric is
    asked for: the probe raises (nothing was started); a call of the
    measurement pass raises (the monitor was started and is left running);
    or it returns (the monitor was started, then stopped). *)
Lemma get_peak_memory_outcome (device : string) (num_iter : Z)
  (export_metrics_file : string) (metrics_needed : list string)
  (metrics_gpu_backend : string) (cpu_monitored_pid : option Z) (w : world) :
  In "cpu_peak_mem" metrics_needed \/ In "gpu_peak_mem" metrics_needed ->
  let n := range (probe_num_iter (reading O (n_clock w))
                                 (reading O (S (n_clock w)))) in
  exists r w' l1,
    get_peak_memory O (invoke O) device num_iter export_metrics_file
      metrics_needed metrics_gpu_backend cpu_monitored_pid w = (r, w') /\
    work_only l1 /\ invocations l1 = 1%nat /\
    ((func_raises O (n_invoke w) = true /\ r = Raise ModelError /\
      advances w w' l1 1 1)
     \/
     (func_raises O (n_invoke w) = false /\ r = Raise ModelError /\
      monitor_running w' = true /\
      (exists i, (i < n)%nat /\ func_raises O (n_invoke w + 1 + i) = true) /\
      exists l2, log w' = (log w ++ l1 ++ EvStartMonitor :: l2)%list /\
                 work_only l2)
     \/
     (func_raises O (n_invoke w) = false /\
      r = Ok (if mem "cpu_peak_mem" metrics_needed
              then calculate_cpu_peak_mem O else None,
              fst (if mem "gpu_peak_mem" metrics_needed
                   then calculate_gpu_peak_mem O else (None, None)),
              snd (if mem "gpu_peak_mem" metrics_needed
                   then calculate_gpu_peak_mem O else (None, None))) /\
      monitor_running w' = false /\
      n_invoke w' = (n_invoke w + 1 + n)%nat /\
      exists l2, log w' = (log w ++ l1 ++ EvStartMonitor :: l2 ++
                           EvStopMonitor :: EvAggregate ::
                           (if String.eqb export_metrics_file ""
                            then [] else [EvExport]))%list /\
                 work_only l2 /\ invocations l2 = n)).
Proof.
  intros Hneeded n. unfold get_peak_memory.
  destruct (filter _ metrics_needed) eqn:F.
  { apply recognised_none in F. tauto. }
  clear F.
  destruct (time_ns_step w) as (w1 & E1 & A1).
  destruct (work_func_step device w1) as (w2 & l1 & E2 & A2 & W2 & N2).
  pose proof (advances_trans A1 A2) as B2. simpl in B2.
  assert (I1 : n_invoke w1 = n_invoke w)
    by (destruct A1 as (_ & _ & -> & _); lia).
  rewrite I1 in E2. rewrite (bind_ok _ E1).
  destruct (func_raises O (n_invoke w)) eqn:R.
  { exists (Raise ModelError), w2, l1.
    split; [now rewrite (bind_raise _ E2) |]. split; [exact W2 |].
    split; [exact N2 |]. left. auto. }
  rewrite (bind_ok _ E2).
  destruct (time_ns_step w2) as (w3 & E3 & A3).
  assert (C2 : n_clock w2 = S (n_clock w))
    by (destruct B2 as (_ & -> & _ & _); lia).
  rewrite C2 in E3. rewrite (bind_ok _ E3). fold n.
  pose proof (advances_trans B2 A3) as B3. simpl in B3.
  rewrite app_nil_r in B3.
  set (w4 := {| n_clock := n_clock w3; n_invoke := n_invoke w3;
                monitor_running := true;
                log := (log w3 ++ [EvStartMonitor])%list |}).
  assert (E4 : start_monitor w3 = (Ok tt, w4)) by reflexivity.
  rewrite (bind_ok _ E4).
  destruct (work_loop device n w4) as (r & w5 & l2 & j & E5 & A5 & W5 & N5 & Hr).
  destruct B3 as (L3 & C3 & I3 & M3).
  destruct A5 as (L5 & C5 & I5 & M5). simpl in L5, C5, I5, M5.
  assert (L5' : log w5 = (log w ++ l1 ++ EvStartMonitor :: l2)%list).
  { rewrite L5, L3, <- !app_assoc. reflexivity. }
  destruct Hr as [[-> ->] | [-> (i & Hi & Ri)]].
  - rewrite (bind_ok _ E5).
    destruct (String.eqb export_metrics_file "");
      cbv [bind stop_monitor emit ret];
      (eexists _, _, l1; split; [reflexivity |]); (split; [exact W2 |]);
      (split; [exact N2 |]); right; right;
      (split; [reflexivity |]); (split; [reflexivity |]);
      (split; [reflexivity |]); (split; [simpl; lia |]);
      exists l2; (split; [| split; [exact W5 | exact N5]]);
      simpl; rewrite L5'; rewrite <- !app_assoc; simpl;
      rewrite <- ?app_assoc; reflexivity.
  - exists (Raise ModelError), w5, l1.
    split; [now rewrite (bind_raise _ E5) |]. split; [exact W2 |].
    split; [exact N2 |]. right; left.
    split; [reflexivity |]. split; [reflexivity |]. split; [exact M5 |].
    split.
    + exists i. split; [exact Hi |]. simpl in Ri. rewrite I3 in Ri. exact Ri.
    + exists l2. split; [exact L5' | exact W5].
Qed.

Lemma work_only_In (l : list event) (e : event) :
  work_only l -> In e l -> is_work e = true.
Proof. unfold work_only. rewrite forallb_forall. auto. Qed.

(** C9: [get_peak_memory] raises the configuration error ([ValueError]) if
    and only if [metrics_needed] holds neither ["cpu_peak_mem"] nor
    ["gpu_peak_mem"]; and when it does, the world is as it was: no monitor
    was started, the callback was not called. *)
Theorem get_peak_memory_config_error (device : string) (num_iter : Z)
  (export_metrics_file : string) (metrics_needed : list string)
  (metrics_gpu_backend : string) (cpu_monitored_pid : option Z) (w : world) :
  let rw := get_peak_memory O (invoke O) device num_iter export_metrics_file
              metrics_needed metrics_gpu_backend cpu_monitored_pid w in
  (fst rw = Raise ValueError <->
   ~ In "cpu_peak_mem" metrics_needed /\ ~ In "gpu_peak_mem" metrics_needed) /\
  (fst rw = Raise ValueError -> snd rw = w).
Proof.
  intros rw. subst rw.
  destruct (mem "cpu_peak_mem" metrics_needed) eqn:Hc;
    [| destruct (mem "gpu_peak_mem" metrics_needed) eqn:Hg].
  3: { apply mem_false in Hc, Hg.
       rewrite get_peak_memory_unrecognised by assumption. simpl. tauto. }
  all: assert (Hn : In "cpu_peak_mem" metrics_needed \/
                    In "gpu_peak_mem" metrics_needed)
         by (rewrite <- !mem_In; auto).
  all: destruct (get_peak_memory_outcome device num_iter export_metrics_file
                   metrics_needed metrics_gpu_backend cpu_monitored_pid w Hn)
         as (r & w' & l1 & E & _ & _ & Hr).
  all: rewrite E; simpl.
  all: assert (Hv : r <> Raise ValueError)
         by (destruct Hr as [(_ & -> & _) | [(_ & -> & _) | (_ & -> & _)]];
             discriminate).
  all: tauto.
Qed.

(** C5, as the claim has it, fails: when the second call of the callback
    (the first of the measurement pass) raises, [get_peak_memory] passes
    the error on with the monitor started and never stopped. *)
Lemma get_peak_memory_monitor_left_running :
  let rw := get_peak_memory Samples.second_call_raises
              (invoke Samples.second_call_raises) "cpu" MEMPROF_ITER ""
              ["cpu_peak_mem"] "dcgm" None Samples.fresh in
  fst rw = Raise ModelError /\
  log (snd rw) = [EvInvoke; EvStartMonitor; EvInvoke] /\
  monitor_running (snd rw) = true.
Proof. vm_compute. repeat split. Qed.

(** C5, amended: when [get_peak_memory] returns, the monitor was started
    after the probe (the one call of the callback made before it) and
    stopped after the measurement pass (the calls made between start and
    stop, as many as the probe decides), it was started and stopped once,
    and it is not running; when the call raises after the monitor was
    started, the error is the callback's, raised in the measurement pass
    after the probe, the monitor was not stopped and is left running. *)
Theorem get_peak_memory_monitor_paths (device : string) (num_iter : Z)
  (export_metrics_file : string) (metrics_needed : list string)
  (metrics_gpu_backend : string) (cpu_monitored_pid : option Z) (w : world) :
  let rw := get_peak_memory O (invoke O) device num_iter export_metrics_file
              metrics_needed metrics_gpu_backend cpu_monitored_pid w in
  exists l,
    log (snd rw) = (log w ++ l)%list /\
    (is_ok (fst rw) = true ->
     monitor_running (snd rw) = false /\
     exists l1 l2 l3,
       l = (l1 ++ EvStartMonitor :: l2 ++ EvStopMonitor :: l3)%list /\
       work_only l1 /\ invocations l1 = 1%nat /\
       work_only l2 /\
       invocations l2 =
         range (probe_num_iter (reading O (n_clock w))
                               (reading O (S (n_clock w)))) /\
       ~ In EvStartMonitor l3 /\ ~ In EvStopMonitor l3) /\
    (is_ok (fst rw) = false -> In EvStartMonitor l ->
     fst rw = Raise ModelError /\
     monitor_running (snd rw) = true /\
     ~ In EvStopMonitor l /\
     exists l1 l2,
       l = (l1 ++ EvStartMonitor :: l2)%list /\
       work_only l1 /\ invocations l1 = 1%nat /\ work_only l2).
Proof.
  intros rw. subst rw.
  destruct (mem "cpu_peak_mem" metrics_needed) eqn:Hc;
    [| destruct (mem "gpu_peak_mem" metrics_needed) eqn:Hg].
  3: { apply mem_false in Hc, Hg.
       rewrite get_peak_memory_unrecognised by assumption.
       exists []. simpl. rewrite app_nil_r. split; [reflexivity |].
       split; [discriminate | contradiction]. }
  all: assert (Hn : In "cpu_peak_mem" metrics_needed \/
                    In "gpu_peak_mem" metrics_needed)
         by (rewrite <- !mem_In; auto).
  all: destruct (get_peak_memory_outcome device num_iter export_metrics_file
                   metrics_needed metrics_gpu_backend cpu_monitored_pid w Hn)
         as (r & w' & l1 & E & W1 & N1 & Hr).
  all: rewrite E; simpl.
  all: destruct Hr as [(_ & -> & (L & _)) |
                       [(_ & -> & Mon & _ & (l2 & L & W2)) |
                        (_ & -> & Mon & _ & (l2 & L & W2 & N2))]].
  all: try (exists l1; split; [exact L |]; split; [discriminate |];
            intros _ Hin; apply (work_only_In _ _ W1) in Hin; discriminate).
  all: try (eexists; split; [exact L |]; split; [discriminate |];
            intros _ _; split; [reflexivity |]; split; [exact Mon |];
            split;
            [ intros Hin; apply in_app_or in Hin as [Hin | [Hin | Hin]];
              [apply (work_only_In _ _ W1) in Hin
              | | apply (work_only_In _ _ W2) in Hin]; discriminate
            | exists l1, l2; repeat split; assumption ]).
  all: eexists; split; [exact L |]; split; [| discriminate];
       intros _; split; [exact Mon |]; exists l1, l2; eexists;
       split; [reflexivity |];
       split; [exact W1 |]; split; [exact N1 |]; split; [exact W2 |];
       split; [exact N2 |];
       destruct (String.eqb export_metrics_file ""); simpl;
       split; intros Hin; intuition discriminate.
Qed.

(** C6: whatever [num_iter] is passed, when a recognised metric is asked
    for and the callback returns from its calls, [get_peak_memory] returns
    after a probe of one call and a measurement pass, between the start and
    the stop of the monitor, of 15 calls if and only if the probe took less
    than 15 ms (15 000 000 ns between the two clock readings around it),
    and of 2 calls if and only if it took 15 ms or more. *)
Theorem get_peak_memory_iterations (device : string) (num_iter : Z)
  (export_metrics_file : string) (metrics_needed : list string)
  (metrics_gpu_backend : string) (cpu_monitored_pid : option Z) (w : world) :
  In "cpu_peak_mem" metrics_needed \/ In "gpu_peak_mem" metrics_needed ->
  (forall i, (i <= 15)%nat -> func_raises O (n_invoke w + i) = false) ->
  let probe := reading O (S (n_clock w)) - reading O (n_clock w) in
  exists res w' l1 l2 l3,
    get_peak_memory O (invoke O) device num_iter export_metrics_file
      metrics_needed metrics_gpu_backend cpu_monitored_pid w = (Ok res, w') /\
    log w' = (log w ++ l1 ++ EvStartMonitor :: l2 ++ EvStopMonitor :: l3)%list /\
    work_only l1 /\ invocations l1 = 1%nat /\
    work_only l2 /\
    (invocations l2 = 15%nat <-> probe < 15 * 1000000) /\
    (invocations l2 = 2%nat <-> 15 * 1000000 <= probe).
Proof.
  intros Hn Hcalm probe.
  destruct (get_peak_memory_outcome device num_iter export_metrics_file
              metrics_needed metrics_gpu_backend cpu_monitored_pid w Hn)
    as (r & w' & l1 & E & W1 & N1 & Hr).
  assert (Hiter : range (probe_num_iter (reading O (n_clock w))
                                        (reading O (S (n_clock w))))
                  = if probe <? 15 * 1000000 then 15%nat else 2%nat).
  { unfold probe_num_iter. fold probe.
    destruct (probe <? 15 * 1000000); reflexivity. }
  rewrite Hiter in Hr.
  destruct Hr as [(R & _) |
                  [(_ & _ & _ & (i & Hi & R) & _) |
                   (_ & -> & _ & _ & (l2 & L & W2 & N2))]].
  - rewrite <- (Nat.add_0_r (n_invoke w)), Hcalm in R by lia. discriminate.
  - rewrite <- Nat.add_assoc, Hcalm in R; [discriminate |].
    destruct (probe <? 15 * 1000000); lia.
  - eexists _, w', l1, l2, _. split; [exact E |]. split; [exact L |].
    split; [exact W1 |]. split; [exact N1 |]. split; [exact W2 |].
    rewrite N2. destruct (Z.ltb_spec probe (15 * 1000000)); lia.
Qed.

End Steps.

(** *** [get_model_test_metrics] *)

Section Orchestrator.

Variable O : oracle.

Lemma get_peak_memory_result (device : string) (num_iter : Z)
  (export_metrics_file : string) (metrics_needed : list string)
  (metrics_gpu_backend : string) (cpu_monitored_pid : option Z)
  (w w' : world) (r : option float * option string * option float) :
  get_peak_memory O (invoke O) device num_iter export_metrics_file
    metrics_needed metrics_gpu_backend cpu_monitored_pid w = (Ok r, w') ->
  fst (fst r) = (if mem "cpu_peak_mem" metrics_needed
                 then calculate_cpu_peak_mem O else None) /\
  snd r = snd (if mem "gpu_peak_mem" metrics_needed
               then calculate_gpu_peak_mem O else (None, None)).
Proof.
  intros E.
  assert (Hn : In "cpu_peak_mem" metrics_needed \/
               In "gpu_peak_mem" metrics_needed).
  { destruct (mem "cpu_peak_mem" metrics_needed) eqn:Hc;
      [left; now apply mem_In |].
    destruct (mem "gpu_peak_mem" metrics_needed) eqn:Hg;
      [right; now apply mem_In |].
    apply mem_false in Hc, Hg.
    rewrite (get_peak_memory_unrecognised O) in E by assumption.
    discriminate E. }
  destruct (get_peak_memory_outcome O device num_iter export_metrics_file
              metrics_needed metrics_gpu_backend cpu_monitored_pid w Hn)
    as (r0 & w0 & l1 & E0 & _ & _ & Hr).
  rewrite E in E0. injection E0 as <- <-.
  destruct Hr as [(_ & Hr & _) | [(_ & Hr & _) | (_ & Hr & _)]];
    try discriminate.
  injection Hr as ->. split; reflexivity.
Qed.

Lemma comprehension_Forall2 {A B} (f : A -> result B) (l : list A)
  (ys : list B) :
  comprehension f l = Ok ys -> Forall2 (fun x y => f x = Ok y) l ys.
Proof.
  revert ys; induction l as [|x l IH]; intros ys H; simpl in H.
  - injection H as <-. constructor.
  - destruct (f x) eqn:Fx; [| discriminate].
    destruct (comprehension f l); [| discriminate].
    injection H as <-. constructor; auto.
Qed.

(** A step that sets one field when its metric is asked for *)
Lemma asked_step {X} (c : bool) (act : M world X)
  (upd : X -> TorchBenchModelMetrics) (m0 m1 : TorchBenchModelMetrics)
  (w w1 : world) :
  (if c then bind act (fun x => ret (upd x)) else ret m0) w = (Ok m1, w1) ->
  (c = true /\ exists x, act w = (Ok x, w1) /\ m1 = upd x) \/
  (c = false /\ m1 = m0).
Proof.
  destruct c; intros H.
  - apply bind_ok_inv in H as (x & w0 & Ex & R). injection R as <- <-.
    left. split; [reflexivity |]. now exists x.
  - injection H as <- <-. now right.
Qed.

Lemma asked_pure (c : bool) (m0 m' m1 : TorchBenchModelMetrics)
  (w w1 : world) :
  (if c then ret m' else ret m0) w = (Ok m1, w1) ->
  m1 = (if c then m' else m0).
Proof. destruct c; intros H; injection H as <- <-; reflexivity. Qed.

(** What a returned record holds, field by field *)
Lemma get_model_test_metrics_fields (m : model) (required_metrics : list string)
  (export_metrics_file metrics_gpu_backend : string) (nwarmup num_iter : Z)
  (w w' : world) (res : TorchBenchModelMetrics) :
  get_model_test_metrics O m required_metrics export_metrics_file
    metrics_gpu_backend nwarmup num_iter w = (Ok res, w') ->
  (mem "latencies" required_metrics || mem "throughputs" required_metrics
   = false -> latencies res = []) /\
  (if mem "throughputs" required_metrics
   then comprehension (fun latency => truediv (model_batch_size m * 1000) latency)
          (latencies res) = Ok (throughputs res)
   else throughputs res = []) /\
  accuracy res = None /\
  (mem "cpu_peak_mem" required_metrics = false -> cpu_peak_mem res = None) /\
  (mem "gpu_peak_mem" required_metrics = false -> gpu_peak_mem res = None) /\
  (mem "ttfb" required_metrics = false -> ttfb res = None) /\
  (mem "pt2_compilation_time" required_metrics = false ->
   pt2_compilation_time res = None) /\
  (mem "pt2_graph_breaks" required_metrics = false ->
   pt2_graph_breaks res = None) /\
  (mem "model_flops" required_metrics = false -> model_flops res = None) /\
  error_msg res = None.
Proof.
  unfold get_model_test_metrics. intros H.
  assert (H' :
    bind (if mem "latencies" required_metrics || mem "throughputs" required_metrics
          then bind (get_latencies O (invoke O) (model_device m) nwarmup num_iter)
                 (fun l => ret (set_latencies empty_metrics l))
          else ret empty_metrics)
      (fun metrics =>
    bind (if mem "cpu_peak_mem" required_metrics
             || mem "gpu_peak_mem" required_metrics
          then bind (get_peak_memory O (invoke O) (model_device m) MEMPROF_ITER
                       export_metrics_file required_metrics metrics_gpu_backend
                       (Some match kind m with
                             | KBenchmarkModel => getpid O
                             | _ => worker_pid m
                             end))
                 (fun r => ret (set_peak_mem metrics (fst (fst r)) (snd r)))
          else ret metrics)
      (fun metrics =>
    bind (if mem "throughputs" required_metrics
          then bind (lift (comprehension
                             (fun latency =>
                                truediv (model_batch_size m * 1000) latency)
                             (latencies metrics)))
                 (fun t => ret (set_throughputs metrics t))
          else ret metrics)
      (fun metrics =>
    bind (if mem "pt2_compilation_time" required_metrics
          then ret (set_pt2_compilation_time metrics (attr_pt2_compilation_time m))
          else ret metrics)
      (fun metrics =>
    bind (if mem "pt2_graph_breaks" required_metrics
          then ret (set_pt2_graph_breaks metrics (attr_pt2_graph_breaks m))
          else ret metrics)
      (fun metrics =>
    bind (if mem "model_flops" required_metrics
          then bind (get_model_flops O m)
                 (fun f => ret (set_model_flops metrics (Some f)))
          else ret metrics)
      (fun metrics =>
    bind (if mem "ttfb" required_metrics
          then ret (set_ttfb metrics (attr_ttfb m))
          else ret metrics)
      (fun metrics => ret metrics))))))) w = (Ok res, w')).
  { destruct (kind m); [exact H | exact H | discriminate H]. }
  clear H.
  apply bind_ok_inv in H' as (m1 & w1 & S1 & H').
  apply bind_ok_inv in H' as (m2 & w2 & S2 & H').
  apply bind_ok_inv in H' as (m3 & w3 & S3 & H').
  apply bind_ok_inv in H' as (m4 & w4 & S4 & H').
  apply bind_ok_inv in H' as (m5 & w5 & S5 & H').
  apply bind_ok_inv in H' as (m6 & w6 & S6 & H').
  apply bind_ok_inv in H' as (m7 & w7 & S7 & H').
  injection H' as <- <-.
  apply asked_step in S1, S2, S3, S6.
  apply asked_pure in S4, S5, S7.
  destruct S2 as [(C2 & r & E2 & ->) | (C2 & ->)];
    [apply get_peak_memory_result in E2 as [Rc Rg] |
     apply orb_false_iff in C2 as [Cc Cg]].
  all: destruct S1 as [(C1 & l & _ & ->) | (C1 & ->)].
  all: destruct S3 as [(C3 & t & E3 & ->) | (C3 & ->)];
    [injection E3 as E3 |].
  all: destruct S6 as [(C6 & f & _ & ->) | (C6 & ->)].
  all: subst m4 m5 m7; rewrite ?C1, ?C3, ?C6, ?Cc, ?Cg.
  all: destruct (mem "pt2_compilation_time" required_metrics),
         (mem "pt2_graph_breaks" required_metrics),
         (mem "ttfb" required_metrics); simpl.
  all: rewrite ?Rc, ?Rg.
  all: repeat split; intros; try discriminate; try reflexivity;
       try assumption; try congruence.
  all: match goal with
       | H : mem _ _ = false |- _ => rewrite H; reflexivity
       end.
Qed.

(** C3, amended: in the record [get_model_test_metrics] returns, a field
    whose name is not in [required_metrics] holds its default, except that
    [latencies] is also filled when ["throughputs"] is asked for: it holds
    its default when neither name is in [required_metrics]. *)
Theorem get_model_test_metrics_frame (m : model) (required_metrics : list string)
  (export_metrics_file metrics_gpu_backend : string) (nwarmup num_iter : Z)
  (w w' : world) (res : TorchBenchModelMetrics) (field : string) :
  get_model_test_metrics O m required_metrics export_metrics_file
    metrics_gpu_backend nwarmup num_iter w = (Ok res, w') ->
  In field field_names ->
  ~ In field required_metrics ->
  (field = "latencies" -> ~ In "throughputs" required_metrics) ->
  at_default field res = true.
Proof.
  intros H Hfield Hnot Hlat.
  apply get_model_test_metrics_fields in H
    as (F1 & F2 & F3 & F4 & F5 & F6 & F7 & F8 & F9 & F10).
  apply mem_false in Hnot.
  simpl in Hfield.
  repeat (destruct Hfield as [<- | Hfield]); try contradiction;
    unfold at_default; simpl.
  - rewrite F1; [reflexivity |]. rewrite Hnot. simpl.
    apply mem_false. auto.
  - rewrite Hnot in F2. now rewrite F2.
  - now rewrite F3.
  - now rewrite F4.
  - now rewrite F5.
  - now rewrite F6.
  - now rewrite F7.
  - now rewrite F8.
  - now rewrite F9.
  - now rewrite F10.
Qed.

(** C7: when ["throughputs"] is asked for, the record
    [get_model_test_metrics] returns has as many throughputs as latencies,
    and each throughput is [batch_size * 1000 / latency] for the latency at
    its position: the integer [batch_size * 1000], as a float, divided by
    that latency. *)
Theorem get_model_test_metrics_throughputs (m : model)
  (required_metrics : list string)
  (export_metrics_file metrics_gpu_backend : string) (nwarmup num_iter : Z)
  (w w' : world) (res : TorchBenchModelMetrics) :
  In "throughputs" required_metrics ->
  get_model_test_metrics O m required_metrics export_metrics_file
    metrics_gpu_backend nwarmup num_iter w = (Ok res, w') ->
  List.length (throughputs res) = List.length (latencies res) /\
  Forall2 (fun latency throughput =>
             exists b, float_of_int (model_batch_size m * 1000) = Ok b /\
                       throughput = (b / latency)%float)
          (latencies res) (throughputs res).
Proof.
  intros Hin H.
  apply get_model_test_metrics_fields in H as (_ & F2 & _).
  apply mem_In in Hin. rewrite Hin in F2.
  apply comprehension_Forall2 in F2.
  split; [symmetry; exact (Forall2_length F2) |].
  eapply Forall2_impl; [| exact F2]. simpl.
  intros latency throughput. unfold truediv.
  destruct (float_of_int (model_batch_size m * 1000)) as [b | e];
    [| discriminate].
  destruct (PrimFloat.eqb latency 0); [discriminate |].
  intros E. injection E as <-. now exists b.
Qed.

(** *** [run_config] *)

Lemma list_remove_NoDup (x : string) (l r : list string) :
  NoDup l -> list_remove x l = Ok r -> ~ In x r.
Proof.
  revert r; induction l as [|y l IH]; intros r Hn H; simpl in H.
  - discriminate.
  - inversion Hn as [|? ? Hy Hl]; subst.
    destruct (String.eqb_spec x y) as [-> | Hxy].
    + injection H as <-. exact Hy.
    + destruct (list_remove x l) as [r' |] eqn:R; [| discriminate].
      injection H as <-. simpl. intros [E | Hi]; [congruence |].
      now apply (IH r').
Qed.

(** The defect behind C1, in general: when the requested metrics hold no
    name twice, the record [run_config] ends with never carries an accuracy,
    asked for or not. *)
Lemma run_config_metrics_no_accuracy (config : TorchBenchModelConfig)
  (w w' : world) (res : TorchBenchModelMetrics) :
  NoDup (metrics config) ->
  run_config_metrics O config false w = (Ok res, w') ->
  accuracy res = None.
Proof.
  intros Hn H. unfold run_config_metrics in H.
  apply bind_ok_inv in H as (u & w0 & _ & H).
  apply bind_ok_inv in H as (ra & w1 & Hra & H).
  assert (Hacc : mem "accuracy" (fst ra) = false).
  { apply mem_false. destruct (mem "accuracy" (metrics config)) eqn:Hm.
    - apply bind_ok_inv in Hra as (a & w2 & _ & Hra).
      apply bind_ok_inv in Hra as (rm & w3 & Hrm & Hra).
      injection Hra as <- _. injection Hrm as Hrm _. simpl.
      now apply (list_remove_NoDup "accuracy" (metrics config)).
    - injection Hra as <- _. simpl. now apply mem_false. }
  apply bind_ok_inv in H as (m1 & w2 & Hm1 & H).
  rewrite Hacc in H.
  apply bind_ok_inv in H as (m2 & w3 & Hm2 & H).
  injection Hm2 as <- _.
  apply bind_ok_inv in H as (u' & w4 & _ & H). injection H as <- _.
  destruct (fst ra) as [|x rest].
  - injection Hm1 as <- _. reflexivity.
  - apply bind_ok_inv in Hm1 as (u'' & w5 & _ & Hm1).
    now apply get_model_test_metrics_fields in Hm1 as (_ & _ & F3 & _).
Qed.

End Orchestrator.

(** C3, as the claim has it, fails: asked for ["throughputs"] only, the
    record comes back with its [latencies] filled. *)
Lemma get_model_test_metrics_fills_latencies :
  exists res w',
    get_model_test_metrics Samples.calm Samples.host_model ["throughputs"]
      "" "nvml" 1 2 Samples.fresh = (Ok res, w') /\
    In "latencies" field_names /\
    ~ In "latencies" ["throughputs"] /\
    latencies res = [1%float; 5%float] /\
    at_default "latencies" res = false.
Proof.
  eexists _, _. split; [vm_compute; reflexivity |].
  split; [left; reflexivity |].
  split; [intros [E | []]; discriminate E |].
  split; reflexivity.
Qed.

(** In that run, [ttfb] is not asked for and holds its default *)
Lemma get_model_test_metrics_frame_witness :
  exists res w',
    get_model_test_metrics Samples.calm Samples.host_model ["throughputs"]
      "" "nvml" 1 2 Samples.fresh = (Ok res, w') /\
    at_default "ttfb" res = true.
Proof.
  eexists _, _. split; [vm_compute; reflexivity |].
  eapply (get_model_test_metrics_frame Samples.calm Samples.host_model
            ["throughputs"] "" "nvml" 1 2 Samples.fresh).
  - vm_compute; reflexivity.
  - simpl. tauto.
  - simpl. intros [E | []]. discriminate E.
  - intros E. discriminate E.
Defined.

(** In the same run the two throughputs are [8 * 1000 / latency] *)
Lemma get_model_test_metrics_throughputs_witness :
  In "throughputs" ["throughputs"] /\
  exists res w',
    get_model_test_metrics Samples.calm Samples.host_model ["throughputs"]
      "" "nvml" 1 2 Samples.fresh = (Ok res, w') /\
    List.length (throughputs res) = List.length (latencies res) /\
    Forall2 (fun latency throughput =>
               exists b,
                 float_of_int (model_batch_size Samples.host_model * 1000)
                 = Ok b /\ throughput = (b / latency)%float)
            (latencies res) (throughputs res).
Proof.
  split; [left; reflexivity |].
  eexists _, _. split; [vm_compute; reflexivity |].
  eapply (get_model_test_metrics_throughputs Samples.calm Samples.host_model
            ["throughputs"] "" "nvml" 1 2 Samples.fresh).
  - left; reflexivity.
  - vm_compute; reflexivity.
Defined.

Example get_model_test_metrics_calm :
  fst (get_model_test_metrics Samples.calm Samples.host_model ["throughputs"]
         "" "nvml" 1 2 Samples.fresh)
  = Ok (set_throughputs (set_latencies empty_metrics [1%float; 5%float])
          [8000%float; 1600%float]).
Proof. vm_compute. reflexivity. Qed.

Lemma string_app_nil_r (a : string) : (a ++ "")%string = a.
Proof. induction a; simpl; congruence. Qed.

(** The dry run of the specification: an all-default record, the skip
    marker printed, no model loaded, whatever the configuration. *)
Lemma run_config_dryrun (O : oracle) (config : TorchBenchModelConfig)
  (w : world) :
  exists w',
    run_config O config false true w = (Ok (inl empty_metrics), w') /\
    log w' =
      (log w ++ [EvPrint ("Running config " ++ repr_config O config ++ " ...");
                 EvPrint ("[skip_by_dryrun]" ++ newline)])%list /\
    n_invoke w' = n_invoke w.
Proof.
  eexists. split; [reflexivity |]. cbn [log n_invoke].
  rewrite <- app_assoc, string_app_nil_r. split; reflexivity.
Qed.

(** C1 (the code departs from the claim): asked for ["accuracy"],
    [run_config] evaluates it, and [get_model_accuracy] answers ["pass"],
    but the record returned has no accuracy; the same with
    ["latencies"] beside it. *)
Theorem run_config_drops_accuracy :
  fst (get_model_accuracy Samples.calm Samples.accuracy_only true Samples.fresh)
  = Ok "pass"%string /\
  fst (run_config Samples.calm Samples.accuracy_only false false Samples.fresh)
  = Ok (inl empty_metrics) /\
  exists res,
    fst (run_config Samples.calm Samples.accuracy_and_latencies false false
           Samples.fresh) = Ok (inl res) /\
    List.length (latencies res) = 15%nat /\
    accuracy res = None.
Proof.
  split; [reflexivity |]. split; [reflexivity |].
  eexists. split; [vm_compute; reflexivity |]. split; reflexivity.
Qed.

(** A run of [get_latencies] on an accelerator with 2 warm-up rounds and 3
    timed iterations, the callback returning each time *)
Lemma get_latencies_counts_witness :
  (forall i, (i < 2 + 3)%nat ->
     func_raises Samples.calm (n_invoke Samples.fresh + i) = false) /\
  exists lats w' l,
    get_latencies Samples.calm (invoke Samples.calm) "cuda" 2 3 Samples.fresh
    = (Ok lats, w') /\
    log w' = (log Samples.fresh ++ l)%list /\
    invocations l = (2 + 3)%nat /\
    n_invoke w' = (n_invoke Samples.fresh + (2 + 3))%nat /\
    List.length lats = 3%nat /\
    forall i, (i < 3)%nat ->
      nth_error lats i
      = Some (iteration_latency Samples.calm (n_clock Samples.fresh) i).
Proof.
  split; [intros; reflexivity |].
  apply (get_latencies_counts Samples.calm "cuda" 2 3 Samples.fresh).
  intros; reflexivity.
Defined.

(** The latencies of that run: the clock readings are 1, 3, 5 ms apart *)
Example get_latencies_calm :
  fst (get_latencies Samples.calm (invoke Samples.calm) "cuda" 2 3
         Samples.fresh) = Ok [1%float; 5%float; 9%float].
Proof. vm_compute. reflexivity. Qed.

(** A fast probe (1 ms), then a pass of 15 calls *)
Lemma get_peak_memory_iterations_witness :
  (In "cpu_peak_mem" ["gpu_peak_mem"] \/ In "gpu_peak_mem" ["gpu_peak_mem"]) /\
  (forall i, (i <= 15)%nat ->
     func_raises Samples.calm (n_invoke Samples.fresh + i) = false) /\
  let probe := reading Samples.calm (S (n_clock Samples.fresh))
               - reading Samples.calm (n_clock Samples.fresh) in
  exists res w' l1 l2 l3,
    get_peak_memory Samples.calm (invoke Samples.calm) "cpu" 7 ""
      ["gpu_peak_mem"] "nvml" None Samples.fresh = (Ok res, w') /\
    log w' = (log Samples.fresh ++ l1 ++ EvStartMonitor :: l2
              ++ EvStopMonitor :: l3)%list /\
    work_only l1 /\ invocations l1 = 1%nat /\
    work_only l2 /\
    (invocations l2 = 15%nat <-> probe < 15 * 1000000) /\
    (invocations l2 = 2%nat <-> 15 * 1000000 <= probe).
Proof.
  split; [right; left; reflexivity |]. split; [intros; reflexivity |].
  apply (get_peak_memory_iterations Samples.calm "cpu" 7 ""
           ["gpu_peak_mem"] "nvml" None Samples.fresh).
  - right; left; reflexivity.
  - intros; reflexivity.
Defined.

(** The two regimes, run: a 1 ms probe gives 1 + 15 calls, a 20 ms probe
    gives 1 + 2 calls, whatever [num_iter] was passed. *)
Example get_peak_memory_fast_and_slow :
  n_invoke (snd (get_peak_memory Samples.calm (invoke Samples.calm) "cpu" 7 ""
                   ["gpu_peak_mem"] "nvml" None Samples.fresh)) = 16%nat /\
  n_invoke (snd (get_peak_memory Samples.slow (invoke Samples.slow) "cpu" 7 ""
                   ["gpu_peak_mem"] "nvml" None Samples.fresh)) = 3%nat.
Proof. vm_compute. split; reflexivity. Qed.

End MetricsFacts.

(** ** The upload script *)
Module UploadS3ScriptFacts.

Import UploadS3Csv UploadS3Script PyFacts UploadS3CsvFacts.
Open Scope string_scope.

(** *** The loop over the selected files *)

Section Loop.

Variable Sys : system.
Variable S : s3.
Variables s3_prefix userbenchmark workflow_run_id workflow_run_attempt
  upload_path match_filename : string.

Lemma upload_loop_ok (files : list string) (r : remote) :
  (forall k, k < List.length files ->
             transfer_error S (attempts r + k) = None) ->
  exists r',
    foldM (fun (_ : unit) file =>
             upload_s3 S s3_prefix userbenchmark workflow_run_id
               workflow_run_attempt {| parent := upload_path; entry := file |})
          files tt r = (Ok tt, r') /\
    uploaded r' =
      (uploaded r ++
       map (transfer_of S s3_prefix userbenchmark workflow_run_id
              workflow_run_attempt upload_path) files)%list /\
    attempts r' = attempts r + List.length files.
Proof.
  revert r; induction files as [|f files IH]; intros r H.
  - exists r. simpl. rewrite app_nil_r, Nat.add_0_r. auto.
  - simpl foldM. unfold bind, upload_s3, upload_file.
    rewrite <- (Nat.add_0_r (attempts r)), H by (simpl; lia).
    rewrite Nat.add_0_r.
    match goal with |- context [foldM _ files tt ?r1] =>
      destruct (IH r1) as (r' & E & U & A) end.
    { intros k Hk. simpl. rewrite <- Nat.add_succ_r. apply H. simpl; lia. }
    exists r'. split; [exact E |]. simpl in U, A. split.
    + rewrite U, <- app_assoc. reflexivity.
    + rewrite A. simpl. lia.
Qed.

Lemma upload_loop_fail (files : list string) (j : nat) (e : exn) (r : remote) :
  j < List.length files ->
  (forall k, k < j -> transfer_error S (attempts r + k) = None) ->
  transfer_error S (attempts r + j) = Some e ->
  exists r',
    foldM (fun (_ : unit) file =>
             upload_s3 S s3_prefix userbenchmark workflow_run_id
               workflow_run_attempt {| parent := upload_path; entry := file |})
          files tt r = (Raise e, r') /\
    uploaded r' =
      (uploaded r ++
       map (transfer_of S s3_prefix userbenchmark workflow_run_id
              workflow_run_attempt upload_path) (firstn j files))%list /\
    attempts r' = attempts r + j + 1.
Proof.
  revert j r; induction files as [|f files IH]; intros j r Hj Hok Hfail.
  - simpl in Hj. lia.
  - simpl foldM. unfold bind, upload_s3, upload_file.
    destruct j as [|j].
    + rewrite Nat.add_0_r in Hfail. rewrite Hfail.
      eexists. split; [reflexivity |]. simpl.
      rewrite app_nil_r. split; [reflexivity | lia].
    + rewrite <- (Nat.add_0_r (attempts r)), Hok by lia.
      rewrite Nat.add_0_r.
      match goal with |- context [foldM _ files tt ?r1] =>
        destruct (IH j r1) as (r' & E & U & A) end.
      { simpl in Hj. lia. }
      { intros k Hk. simpl. rewrite <- Nat.add_succ_r. apply Hok. lia. }
      { simpl. rewrite <- Nat.add_succ_r. exact Hfail. }
      exists r'. split; [exact E |]. simpl in U, A. split.
      * rewrite U, <- app_assoc. reflexivity.
      * rewrite A. lia.
Qed.

(** once the pattern compiles and the directory lists, the script loops
    over the entries the pattern matches *)
Lemma main_loop (p : pattern Sys) (listing : list string) (r : remote) :
  re_compile Sys match_filename = Ok p ->
  listdir Sys upload_path = Ok listing ->
  main Sys S s3_prefix userbenchmark workflow_run_id workflow_run_attempt
    upload_path match_filename r
  = foldM (fun (_ : unit) file =>
             upload_s3 S s3_prefix userbenchmark workflow_run_id
               workflow_run_attempt {| parent := upload_path; entry := file |})
          (filter (pattern_match Sys p) listing) tt r.
Proof.
  intros Hc Hl. unfold main, bind, lift, _get_files_to_upload.
  rewrite Hc, Hl. reflexivity.
Qed.

(** X3: when the pattern compiles, the directory lists and no transfer
    fails, the script makes one transfer per selected entry, in the order
    of the listing, each to the bucket's object [s3_prefix] under the
    prefix [userbenchmark/workflow_run_id/workflow_run_attempt], and
    nothing for the entries the pattern leaves out. *)
Theorem main_uploads_each_match (p : pattern Sys) (listing : list string)
  (r : remote) :
  re_compile Sys match_filename = Ok p ->
  listdir Sys upload_path = Ok listing ->
  (forall k, k < List.length (filter (pattern_match Sys p) listing) ->
             transfer_error S (attempts r + k) = None) ->
  exists r',
    main Sys S s3_prefix userbenchmark workflow_run_id
      workflow_run_attempt upload_path match_filename r = (Ok tt, r') /\
    _get_files_to_upload Sys upload_path match_filename
    = Ok (filter (pattern_match Sys p) listing) /\
    uploaded r' =
      (uploaded r ++
       map (transfer_of S s3_prefix userbenchmark workflow_run_id
              workflow_run_attempt upload_path)
         (filter (pattern_match Sys p) listing))%list /\
    attempts r' =
      attempts r + List.length (filter (pattern_match Sys p) listing).
Proof.
  intros Hc Hl H. rewrite (main_loop p listing r Hc Hl).
  destruct (upload_loop_ok _ r H) as (r' & E & U & A).
  exists r'. split; [exact E |]. split; [| split; assumption].
  unfold _get_files_to_upload. now rewrite Hc, Hl.
Qed.

(** X4: when the transfer of the [j]-th selected entry raises, the script
    passes the exception on; the [j] entries before it stay uploaded and the
    entries after it are not tried. *)
Theorem main_stops_at_first_failure (p : pattern Sys)
  (listing : list string) (j : nat) (e : exn) (r : remote) :
  re_compile Sys match_filename = Ok p ->
  listdir Sys upload_path = Ok listing ->
  j < List.length (filter (pattern_match Sys p) listing) ->
  (forall k, k < j -> transfer_error S (attempts r + k) = None) ->
  transfer_error S (attempts r + j) = Some e ->
  exists r',
    main Sys S s3_prefix userbenchmark workflow_run_id
      workflow_run_attempt upload_path match_filename r = (Raise e, r') /\
    _get_files_to_upload Sys upload_path match_filename
    = Ok (filter (pattern_match Sys p) listing) /\
    uploaded r' =
      (uploaded r ++
       map (transfer_of S s3_prefix userbenchmark workflow_run_id
              workflow_run_attempt upload_path)
         (firstn j (filter (pattern_match Sys p) listing)))%list /\
    attempts r' = attempts r + j + 1.
Proof.
  intros Hc Hl Hj Hok Hfail. rewrite (main_loop p listing r Hc Hl).
  destruct (upload_loop_fail _ j e r Hj Hok Hfail) as (r' & E & U & A).
  exists r'. split; [exact E |]. split; [| split; assumption].
  unfold _get_files_to_upload. now rewrite Hc, Hl.
Qed.

End Loop.

Lemma main_uploads_each_match_witness :
  re_compile (Samples.listing_of ["foo.json"; "bar.json"; "foo.txt"])
    "foo.*" = Ok "foo" /\
  listdir (Samples.listing_of ["foo.json"; "bar.json"; "foo.txt"]) "out"
  = Ok ["foo.json"; "bar.json"; "foo.txt"] /\
  exists r',
    main (Samples.listing_of ["foo.json"; "bar.json"; "foo.txt"])
      MoreSamples.reliable "myprefix" "mybench" "123" "1" "out" "foo.*"
      MoreSamples.nothing_sent = (Ok tt, r') /\
    uploaded r' =
      map (transfer_of MoreSamples.reliable "myprefix" "mybench" "123" "1"
             "out")
        ["foo.json"; "foo.txt"] /\
    attempts r' = 2.
Proof.
  split; [reflexivity |]. split; [reflexivity |].
  destruct (main_uploads_each_match
              (Samples.listing_of ["foo.json"; "bar.json"; "foo.txt"])
              MoreSamples.reliable "myprefix" "mybench" "123" "1" "out"
              "foo.*" "foo" ["foo.json"; "bar.json"; "foo.txt"]
              MoreSamples.nothing_sent eq_refl eq_refl)
    as (r' & E & _ & U & A).
  { intros; reflexivity. }
  exists r'. split; [exact E |]. split; [exact U | exact A].
Defined.

(** The end-to-end example of the specification: the one transfer goes
    under the prefix [mybench/123/1] of the object [myprefix]. *)
Example main_foo_json :
  snd (main (Samples.listing_of ["foo.json"; "bar.json"; "baz.txt"])
         MoreSamples.reliable "myprefix" "mybench" "123" "1" "out" "foo.*"
         MoreSamples.nothing_sent)
  = {| attempts := 1;
       uploaded := [ {| call_bucket := "ossci-metrics";
                        call_object := "myprefix";
                        call_prefix := "mybench/123/1";
                        call_file := {| parent := "out";
                                        entry := "foo.json" |} |} ] |}.
Proof. reflexivity. Qed.

Lemma main_stops_at_first_failure_witness :
  2 < List.length
        (filter (pattern_match
                   (Samples.listing_of ["a1"; "a2"; "b"; "a3"; "a4"]) "a")
           ["a1"; "a2"; "b"; "a3"; "a4"]) /\
  exists r',
    main (Samples.listing_of ["a1"; "a2"; "b"; "a3"; "a4"])
      MoreSamples.third_fails "myprefix" "mybench" "123" "1" "out" "a"
      MoreSamples.nothing_sent = (Raise RuntimeError, r') /\
    uploaded r' =
      map (transfer_of MoreSamples.third_fails "myprefix" "mybench" "123"
             "1" "out")
        ["a1"; "a2"] /\
    attempts r' = 3.
Proof.
  split; [simpl; lia |].
  destruct (main_stops_at_first_failure
              (Samples.listing_of ["a1"; "a2"; "b"; "a3"; "a4"])
              MoreSamples.third_fails "myprefix" "mybench" "123" "1" "out"
              "a" "a" ["a1"; "a2"; "b"; "a3"; "a4"] 2 RuntimeError
              MoreSamples.nothing_sent eq_refl eq_refl)
    as (r' & E & _ & U & A).
  { simpl; lia. }
  { intros k Hk. destruct k as [|[|k]]; [reflexivity | reflexivity | lia]. }
  { reflexivity. }
  exists r'. split; [exact E |]. split; [exact U | exact A].
Defined.

(** *** [add_path] *)

Lemma list_remove_first (p : string) (pre l : list string) :
  ~ In p pre -> list_remove p (pre ++ p :: l) = Ok (pre ++ l)%list.
Proof.
  induction pre as [|x pre IH]; intros H; simpl.
  - now rewrite String.eqb_refl.
  - simpl in H. destruct (String.eqb_spec p x) as [-> | _]; [tauto |].
    rewrite IH by tauto. reflexivity.
Qed.

Lemma list_remove_absent (p : string) (l : list string) :
  ~ In p l -> list_remove p l = Raise ValueError.
Proof.
  induction l as [|x l IH]; intros H; simpl.
  - reflexivity.
  - simpl in H. destruct (String.eqb_spec p x) as [-> | _]; [tauto |].
    rewrite IH by tauto. reflexivity.
Qed.

(** X5: a [with add_path(path)] block puts [path] at the head of
    [sys.path] for its body and takes it out again afterwards, whether the
    body returns or raises: if the body leaves [sys.path] with entries
    [pre] (none of them [path]) added in front, the block ends with [pre]
    in front of the original [sys.path], and with the body's own outcome.
    Leaving a block whose body already took [path] out raises nothing. *)
Theorem with_add_path_restores {A} (path : string)
  (body : M (list string) A) (pre sys_path : list string) :
  ~ In path pre ->
  snd (body (path :: sys_path)) = (pre ++ path :: sys_path)%list ->
  with_add_path path body sys_path
  = (fst (body (path :: sys_path)), (pre ++ sys_path)%list) /\
  (~ In path sys_path ->
   add_path_exit path sys_path = (Ok tt, sys_path)).
Proof.
  intros Hpre Hbody. split.
  - unfold with_add_path, bind, add_path_enter, finally, add_path_exit.
    destruct (body (path :: sys_path)) as [r after]. simpl in Hbody. subst after.
    rewrite list_remove_first by assumption. reflexivity.
  - intros Hn. unfold add_path_exit. now rewrite list_remove_absent.
Qed.

Lemma with_add_path_restores_witness :
  ~ In "repo" ["site"] /\
  with_add_path "repo"
    (fun sp : list string => (@Raise unit ModelError, "site" :: sp))
    ["lib"]
  = (Raise ModelError, ["site"; "lib"]).
Proof.
  split; [intros [E | []]; discriminate E |].
  apply (with_add_path_restores "repo"
           (fun sp : list string => (@Raise unit ModelError, "site" :: sp))
           ["site"] ["lib"]).
  - intros [E | []]; discriminate E.
  - reflexivity.
Defined.

End UploadS3ScriptFacts.

(** ** More on the CSV decorator *)
Module TorchaoUploadMore.

Import TorchaoUpload TorchaoScript PyFacts TorchaoUploadFacts.
Open Scope string_scope.

(** *** The header of the decorated rows *)

Lemma dict_keys_set (d : row) (k : string) (v : pyval) :
  dict_keys (dict_set d k v) =
  if mem k (dict_keys d) then dict_keys d else (dict_keys d ++ [k])%list.
Proof.
  induction d as [|[k0 v0] d IH]; simpl.
  - reflexivity.
  - unfold mem; simpl. destruct (String.eqb k k0); simpl.
    + reflexivity.
    + rewrite IH. unfold mem. now destruct (existsb (String.eqb k) (dict_keys d)).
Qed.

Lemma dict_keys_update (kvs d : row) :
  NoDup (dict_keys kvs) ->
  dict_keys (dict_update d kvs) =
  (dict_keys d ++
   filter (fun k => negb (mem k (dict_keys d))) (dict_keys kvs))%list.
Proof.
  unfold dict_update. revert d.
  induction kvs as [|[k v] kvs IH]; intros d Hn; simpl.
  - now rewrite app_nil_r.
  - inversion Hn as [|? ? Hk Hn']; subst.
    rewrite IH by assumption. rewrite dict_keys_set.
    assert (Hsame : forall base,
               mem k base = true \/ True ->
               filter (fun k' => negb (mem k' (base ++ [k])%list))
                 (dict_keys kvs)
               = filter (fun k' => negb (mem k' base)) (dict_keys kvs)).
    { intros base _. apply filter_ext_in. intros k' Hin. f_equal.
      unfold mem. rewrite existsb_app. simpl.
      destruct (String.eqb_spec k' k) as [-> | _]; [contradiction |].
      now rewrite !orb_false_r. }
    destruct (mem k (dict_keys d)) eqn:M; simpl.
    + reflexivity.
    + rewrite Hsame by auto. rewrite <- app_assoc. reflexivity.
Qed.

(** X6: the columns of a decorated row are its own columns, in their
    order, followed by those of the nine metadata columns it did not have
    yet, in the order [workflow_id], [run_attempt], [test_name], [runner],
    [job_id], [filename], [head_repo], [head_branch], [head_sha]; a column
    of the file that bears one of these names keeps its place. *)
Theorem decorated_header (E : environment) (path modelset : string) (r : row) :
  dict_keys (dict_update r (metadata E path modelset)) =
  (dict_keys r ++
   filter (fun k => negb (mem k (dict_keys r)))
     ["workflow_id"; "run_attempt"; "test_name"; "runner"; "job_id";
      "filename"; "head_repo"; "head_branch"; "head_sha"])%list.
Proof.
  rewrite dict_keys_update by apply metadata_keys_NoDup.
  reflexivity.
Qed.

Example decorated_header_perf_row :
  dict_keys (dict_update Samples.perf_row
               (metadata Samples.ci_env "out/torchbench.csv" "torchbench"))
  = ["name"; "speedup"; "workflow_id"; "run_attempt"; "test_name"; "runner";
     "job_id"; "filename"; "head_repo"; "head_branch"; "head_sha"].
Proof. reflexivity. Qed.

(** *** [os.path.basename] and [os.path.splitext] *)

Lemma length_append (a b : string) :
  String.length (a ++ b) = String.length a + String.length b.
Proof. induction a; simpl; congruence. Qed.

Lemma substring_all (s : string) : substring 0 (String.length s) s = s.
Proof. induction s; simpl; congruence. Qed.

Lemma substring_prefix (a b : string) :
  substring 0 (String.length a) (a ++ b) = a.
Proof.
  induction a as [|x a IH]; simpl.
  - now destruct b.
  - now rewrite IH.
Qed.

Lemma substring_after (a : string) (c : ascii) (b : string) (m : nat) :
  substring (S (String.length a)) m (a ++ String c b) = substring 0 m b.
Proof. induction a as [|x a IH]; simpl; [reflexivity | exact IH]. Qed.

Lemma rfind_append (c : ascii) (a b : string) :
  rfind c (a ++ b) =
  match rfind c b with
  | Some i => Some (String.length a + i)
  | None => rfind c a
  end.
Proof.
  induction a as [|x a IH]; simpl.
  - now destruct (rfind c b).
  - rewrite IH. now destruct (rfind c b).
Qed.

Lemma rfind_last (c : ascii) (a b : string) :
  rfind c b = None -> rfind c (a ++ String c b) = Some (String.length a).
Proof.
  intros H. rewrite rfind_append. simpl. rewrite H, Ascii.eqb_refl.
  now rewrite Nat.add_0_r.
Qed.

Lemma rfind_split (c : ascii) (p : string) (i : nat) :
  rfind c p = Some i ->
  exists a b, p = a ++ String c b /\ String.length a = i /\ rfind c b = None.
Proof.
  revert i; induction p as [|d p IH]; intros i H; simpl in H.
  - discriminate.
  - destruct (rfind c p) as [j |] eqn:R.
    + injection H as <-. destruct (IH j eq_refl) as (a & b & -> & <- & Hb).
      now exists (String d a), b.
    + destruct (Ascii.eqb_spec c d) as [-> | _]; [| discriminate].
      injection H as <-. now exists "", p.
Qed.

(** [c in s], for one character, against [rfind] *)
Lemma str_in_char (c : ascii) (s : string) :
  str_in (String c "") s = false <-> rfind c s = None.
Proof.
  induction s as [|d s IH]; simpl.
  - tauto.
  - destruct (Ascii.eqb c d); simpl.
    + destruct (rfind c s); destruct s; simpl; split; discriminate.
    + rewrite IH. destruct (rfind c s); split; congruence.
Qed.

(** X8: [os.path.basename] returns what follows the last ["/"] of the
    path, and the path itself when it has none; what it returns never
    holds a ["/"]. *)
Theorem basename_spec (p : string) :
  (str_in "/" p = false /\ basename p = p \/
   exists dir name, p = dir ++ "/" ++ name /\ str_in "/" name = false /\
                    basename p = name) /\
  str_in "/" (basename p) = false.
Proof.
  unfold basename. destruct (rfind "/" p) as [i |] eqn:R.
  - apply rfind_split in R as (a & b & -> & <- & Hb).
    assert (E : substring (S (String.length a))
                  (String.length (a ++ String "/" b) - S (String.length a))
                  (a ++ String "/" b) = b).
    { rewrite substring_after, length_append. simpl.
      replace (String.length a + S (String.length b) - S (String.length a))
        with (String.length b) by lia.
      apply substring_all. }
    rewrite E. apply str_in_char in Hb. split; [| exact Hb].
    right. now exists a, b.
  - apply str_in_char in R. split; [now left | exact R].
Qed.

(** X9: the [filename] column is the stem of the file: for a path
    [dir/stem.ext], or a bare [stem.ext], where the stem has no ["/"] and is
    not made of dots only and the extension has neither ["/"] nor ["."],
    [splitext(basename(path))[0]] is [stem]. *)
Theorem filename_is_stem (dir stem ext : string) :
  str_in "/" stem = false -> all_dots stem = false ->
  str_in "/" ext = false -> str_in "." ext = false ->
  splitext_root (basename (dir ++ "/" ++ stem ++ "." ++ ext)) = stem /\
  splitext_root (basename (stem ++ "." ++ ext)) = stem.
Proof.
  intros Hs Hd He Hx.
  apply str_in_char in Hs, He, Hx.
  assert (Hn : rfind "/" (stem ++ "." ++ ext) = None).
  { rewrite rfind_append. simpl. now rewrite He, Hs. }
  assert (Hb : basename (dir ++ "/" ++ stem ++ "." ++ ext)
               = stem ++ "." ++ ext).
  { unfold basename. simpl. rewrite (rfind_last _ _ _ Hn).
    rewrite substring_after, length_append. simpl String.length.
    replace (String.length dir + S (String.length (stem ++ String "." ext))
             - S (String.length dir))
      with (String.length (stem ++ String "." ext)) by lia.
    apply substring_all. }
  assert (Hb' : basename (stem ++ "." ++ ext) = stem ++ "." ++ ext).
  { unfold basename. now rewrite Hn. }
  assert (Hr : splitext_root (stem ++ "." ++ ext) = stem).
  { unfold splitext_root. rewrite Hn. simpl.
    rewrite (rfind_last _ _ _ Hx). simpl. rewrite Nat.sub_0_r.
    rewrite (substring_prefix stem (String "." ext)), Hd. reflexivity. }
  rewrite Hb, Hb'. split; exact Hr.
Qed.

Lemma filename_is_stem_witness :
  str_in "/" "torchbench_perf" = false /\
  all_dots "torchbench_perf" = false /\
  splitext_root (basename ("out/run1" ++ "/" ++ "torchbench_perf" ++ "."
                           ++ "csv")) = "torchbench_perf" /\
  splitext_root (basename ("torchbench_perf" ++ "." ++ "csv"))
  = "torchbench_perf".
Proof.
  split; [reflexivity |]. split; [reflexivity |].
  apply (filename_is_stem "out/run1" "torchbench_perf" "csv"); reflexivity.
Defined.

(** X10: a name with no dot, and a name whose only dot is its first
    character, have no extension to cut: [splitext(name)[0]] is the name. *)
Theorem splitext_root_keeps (name : string) :
  str_in "/" name = false -> str_in "." name = false ->
  splitext_root name = name /\
  splitext_root ("." ++ name) = "." ++ name.
Proof.
  intros Hs Hd. apply str_in_char in Hs, Hd.
  unfold splitext_root. simpl. rewrite Hs, Hd. simpl. split; reflexivity.
Qed.

Lemma splitext_root_keeps_witness :
  str_in "/" "bashrc" = false /\
  splitext_root "bashrc" = "bashrc" /\
  splitext_root ("." ++ "bashrc") = "." ++ "bashrc".
Proof.
  split; [reflexivity |].
  apply (splitext_root_keeps "bashrc"); reflexivity.
Defined.

(** *** Failing fast *)


(** X11: [post_ci_process] stops at the first path it cannot take: a path
    of no known category raises the category error before any file is
    opened, a path of a known category with no file behind it raises
    [FileNotFoundError]; either way no file is changed and the paths after
    it are not looked at. *)
Theorem post_ci_process_fails_fast (E : environment) (path : string)
  (rest : list string) (fs : filesystem) :
  (forall e, _get_model_set path = Raise e ->
             post_ci_process E (path :: rest) fs = (Raise e, fs)) /\
  (forall modelset, _get_model_set path = Ok modelset -> fs path = None ->
             post_ci_process E (path :: rest) fs
             = (Raise FileNotFoundError, fs)).
Proof.
  unfold post_ci_process. simpl foldM. unfold bind.
  rewrite process_one_outcome. split.
  - intros e ->. reflexivity.
  - intros modelset -> ->. reflexivity.
Qed.

(** *** The command line *)

Lemma get_model_set_one_char (c : ascii) :
  _get_model_set (String c "") = Raise RuntimeError.
Proof.
  unfold _get_model_set. simpl. rewrite !andb_false_r. reflexivity.
Qed.

(** X12: the script hands the one string of [--test-file] to
    [post_ci_process], whose loop takes it character by character: for any
    non-empty path the first character is looked up as a file name, has no
    known category, and the script ends with the category error, no file
    read or changed; with an empty path it does nothing, and without the
    flag it raises [TypeError]. *)
Theorem main_iterates_characters (E : environment) (fs : filesystem) :
  (forall c rest, main E (Some (String c rest)) fs = (Raise RuntimeError, fs)) /\
  main E (Some "") fs = (Ok tt, fs) /\
  main E None fs = (Raise TypeError, fs).
Proof.
  split; [| split; reflexivity].
  intros c rest. unfold main, post_ci_process. simpl. unfold bind.
  now rewrite process_one_outcome, get_model_set_one_char.
Qed.

End TorchaoUploadMore.

(** ** More on the measurement functions *)
Module MetricsMore.

Import Metrics MetricsObs PyFacts MetricsFacts.
Open Scope string_scope.
Open Scope Z_scope.

Section Sampler.

Variable O : oracle.

(** *** [get_latencies], event by event *)

Lemma warmup_run (k : nat) (w : world) :
  (forall i, (i < k)%nat -> func_raises O (n_invoke w + i) = false) ->
  exists w',
    for_range k (fun _ => invoke O) tt w = (Ok tt, w') /\
    advances w w' (repeat EvInvoke k) 0 k.
Proof.
  revert w; induction k as [|k IH]; intros w H.
  - exists w. split; [reflexivity | apply advances_refl].
  - destruct (invoke_step O w) as (w1 & E1 & A1).
    rewrite <- (Nat.add_0_r (n_invoke w)), H in E1 by lia.
    destruct (IH w1) as (w2 & E2 & A2).
    { intros i Hi. destruct A1 as (_ & _ & -> & _).
      rewrite <- Nat.add_assoc. apply H. lia. }
    exists w2. split.
    + simpl for_range. rewrite (bind_ok _ E1). exact E2.
    + apply (advances_trans A1 A2).
Qed.

Lemma warmup_fail (n k : nat) (w : world) :
  (k < n)%nat ->
  (forall i, (i < k)%nat -> func_raises O (n_invoke w + i) = false) ->
  func_raises O (n_invoke w + k) = true ->
  exists w',
    for_range n (fun _ => invoke O) tt w = (Raise ModelError, w') /\
    advances w w' (repeat EvInvoke (S k)) 0 (S k).
Proof.
  revert k w; induction n as [|n IH]; intros k w Hk Hcalm Hraise; [lia |].
  destruct (invoke_step O w) as (w1 & E1 & A1). simpl for_range.
  destruct k as [|k].
  - rewrite Nat.add_0_r in Hraise. rewrite Hraise in E1.
    exists w1. split; [now rewrite (bind_raise _ E1) | exact A1].
  - rewrite <- (Nat.add_0_r (n_invoke w)), Hcalm in E1 by lia.
    destruct (IH k w1) as (w2 & E2 & A2).
    { lia. }
    { intros i Hi. destruct A1 as (_ & _ & -> & _).
      rewrite <- Nat.add_assoc. apply Hcalm. lia. }
    { destruct A1 as (_ & _ & -> & _). now rewrite <- Nat.add_assoc. }
    exists w2. split; [now rewrite (bind_ok _ E1) |].
    apply (advances_trans A1 A2).
Qed.

(** The timed block, whatever its call does: on an accelerator a barrier
    comes before the first clock reading and, when the call returns, one
    more before the second. *)
Lemma timed_block_run (device : string) (w : world) :
  exists w',
    (if String.eqb device "cuda"
     then bind synchronize (fun _ =>
          bind (time_ns O) (fun t0 =>
          bind (invoke O) (fun _ =>
          bind synchronize (fun _ =>
          bind (time_ns O) (fun t1 => ret (t0, t1))))))
     else bind (time_ns O) (fun t0 =>
          bind (invoke O) (fun _ =>
          bind (time_ns O) (fun t1 => ret (t0, t1))))) w
    = (if func_raises O (n_invoke w) then Raise ModelError
       else Ok (reading O (n_clock w), reading O (S (n_clock w))), w') /\
    if func_raises O (n_invoke w)
    then n_invoke w' = S (n_invoke w) /\
         monitor_running w' = monitor_running w
    else advances w w' (timed_events device) 2 1.
Proof.
  unfold synchronize, timed_events.
  destruct (String.eqb device "cuda").
  - destruct (emit_step EvSync w) as (w1 & E1 & A1).
    destruct (time_ns_step O w1) as (w2 & E2 & A2).
    destruct (invoke_step O w2) as (w3 & E3 & A3).
    destruct (emit_step EvSync w3) as (w4 & E4 & A4).
    destruct (time_ns_step O w4) as (w5 & E5 & A5).
    pose proof (advances_trans A1 A2) as B2.
    pose proof (advances_trans B2 A3) as B3.
    pose proof (advances_trans B3 A4) as B4.
    pose proof (advances_trans B4 A5) as B5. simpl in B2, B3, B4, B5.
    assert (N2 : n_invoke w2 = n_invoke w)
      by (destruct B2 as (_ & _ & -> & _); lia).
    assert (C1 : n_clock w1 = n_clock w)
      by (destruct A1 as (_ & -> & _ & _); lia).
    assert (C4 : n_clock w4 = S (n_clock w))
      by (destruct B4 as (_ & -> & _ & _); lia).
    rewrite N2 in E3. rewrite C1 in E2. rewrite C4 in E5.
    rewrite (bind_ok _ E1), (bind_ok _ E2).
    destruct (func_raises O (n_invoke w)).
    + exists w3. split; [now rewrite (bind_raise _ E3) |].
      destruct B3 as (_ & _ & I & M). split; [lia | exact M].
    + exists w5. split; [| exact B5].
      now rewrite (bind_ok _ E3), (bind_ok _ E4), (bind_ok _ E5).
  - destruct (time_ns_step O w) as (w2 & E2 & A2).
    destruct (invoke_step O w2) as (w3 & E3 & A3).
    destruct (time_ns_step O w3) as (w5 & E5 & A5).
    pose proof (advances_trans A2 A3) as B3.
    pose proof (advances_trans B3 A5) as B5. simpl in B3, B5.
    assert (N2 : n_invoke w2 = n_invoke w)
      by (destruct A2 as (_ & _ & -> & _); lia).
    assert (C3 : n_clock w3 = S (n_clock w))
      by (destruct B3 as (_ & -> & _ & _); lia).
    rewrite N2 in E3. rewrite C3 in E5.
    rewrite (bind_ok _ E2).
    destruct (func_raises O (n_invoke w)).
    + exists w3. split; [now rewrite (bind_raise _ E3) |].
      destruct B3 as (_ & _ & I & M). split; [lia | exact M].
    + exists w5. split; [| exact B5].
      now rewrite (bind_ok _ E3), (bind_ok _ E5).
Qed.

Lemma measured_run (device : string) (n : nat) (acc : list float) (w : world) :
  (forall i, (i < n)%nat -> func_raises O (n_invoke w + i) = false) ->
  exists w',
    for_range n
      (fun result_summary =>
         bind (if String.eqb device "cuda"
               then bind synchronize (fun _ =>
                    bind (time_ns O) (fun t0 =>
                    bind (invoke O) (fun _ =>
                    bind synchronize (fun _ =>
                    bind (time_ns O) (fun t1 => ret (t0, t1))))))
               else bind (time_ns O) (fun t0 =>
                    bind (invoke O) (fun _ =>
                    bind (time_ns O) (fun t1 => ret (t0, t1)))))
           (fun t =>
              bind (lift (truediv (snd t - fst t) NANOSECONDS_PER_MILLISECONDS))
                (fun latency => ret (result_summary ++ [latency])%list)))
      acc w
    = (Ok (acc ++ map (iteration_latency O (n_clock w)) (seq 0 n))%list, w')
    /\ advances w w' (List.concat (repeat (timed_events device) n)) (2 * n) n.
Proof.
  revert acc w; induction n as [|n IH]; intros acc w H.
  - exists w. simpl. rewrite app_nil_r.
    split; [reflexivity | apply advances_refl].
  - destruct (timed_block_run device w) as (w1 & E1 & A1).
    assert (R : func_raises O (n_invoke w) = false)
      by (rewrite <- (Nat.add_0_r (n_invoke w)); apply H; lia).
    rewrite R in E1, A1.
    destruct (IH (acc ++ [iteration_latency O (n_clock w) 0])%list w1)
      as (w2 & E2 & A2).
    { intros i Hi. destruct A1 as (_ & _ & -> & _).
      rewrite <- Nat.add_assoc. apply H. lia. }
    exists w2. split.
    + assert (L0 : latency_ms (reading O (n_clock w)) (reading O (S (n_clock w)))
                   = iteration_latency O (n_clock w) 0).
      { unfold iteration_latency.
        now rewrite Nat.mul_0_r, Nat.add_0_r, Nat.add_1_r. }
      simpl for_range. unfold bind at 1. unfold bind at 1. rewrite E1.
      unfold lift at 1. simpl fst; simpl snd. rewrite truediv_readings, L0.
      unfold bind at 1, ret at 1. rewrite E2.
      f_equal. f_equal. rewrite <- app_assoc. f_equal. simpl. f_equal.
      rewrite <- seq_shift, map_map. apply map_ext. intros i.
      unfold iteration_latency. destruct A1 as (_ & -> & _ & _).
      f_equal; f_equal; lia.
    + replace (2 * S n)%nat with (2 + 2 * n)%nat by lia.
      apply (advances_trans A1 A2).
Qed.

Lemma measured_fail (device : string) (n k : nat) (acc : list float)
  (w : world) :
  (k < n)%nat ->
  (forall i, (i < k)%nat -> func_raises O (n_invoke w + i) = false) ->
  func_raises O (n_invoke w + k) = true ->
  exists w',
    for_range n
      (fun result_summary =>
         bind (if String.eqb device "cuda"
               then bind synchronize (fun _ =>
                    bind (time_ns O) (fun t0 =>
                    bind (invoke O) (fun _ =>
                    bind synchronize (fun _ =>
                    bind (time_ns O) (fun t1 => ret (t0, t1))))))
               else bind (time_ns O) (fun t0 =>
                    bind (invoke O) (fun _ =>
                    bind (time_ns O) (fun t1 => ret (t0, t1)))))
           (fun t =>
              bind (lift (truediv (snd t - fst t) NANOSECONDS_PER_MILLISECONDS))
                (fun latency => ret (result_summary ++ [latency])%list)))
      acc w
    = (Raise ModelError, w') /\
    n_invoke w' = (n_invoke w + S k)%nat /\
    monitor_running w' = monitor_running w.
Proof.
  revert k acc w; induction n as [|n IH]; intros k acc w Hk Hcalm Hraise;
    [lia |].
  destruct (timed_block_run device w) as (w1 & E1 & A1). simpl for_range.
  destruct k as [|k].
  - rewrite Nat.add_0_r in Hraise. rewrite Hraise in E1, A1.
    exists w1. split.
    + unfold bind at 1. unfold bind at 1. now rewrite E1.
    + destruct A1 as [I M]. split; [lia | exact M].
  - assert (R : func_raises O (n_invoke w) = false)
      by (rewrite <- (Nat.add_0_r (n_invoke w)); apply Hcalm; lia).
    rewrite R in E1, A1.
    destruct A1 as (_ & _ & I1 & M1).
    destruct (IH k (acc ++ [latency_ms (reading O (n_clock w))
                              (reading O (S (n_clock w)))])%list w1)
      as (w2 & E2 & I2 & M2).
    { lia. }
    { intros i Hi. rewrite I1, <- Nat.add_assoc. apply Hcalm. lia. }
    { rewrite I1, <- Nat.add_assoc. exact Hraise. }
    exists w2. split.
    + unfold bind at 1. unfold bind at 1. rewrite E1.
      unfold lift at 1. simpl fst; simpl snd. rewrite truediv_readings.
      unfold bind at 1, ret at 1. exact E2.
    + split; [lia | congruence].
Qed.

(** A whole calm run of [get_latencies] *)
Lemma get_latencies_run (device : string) (nwarmup num_iter : Z) (w : world) :
  (forall i, (i < Z.to_nat nwarmup + Z.to_nat num_iter)%nat ->
             func_raises O (n_invoke w + i) = false) ->
  exists w',
    get_latencies O (invoke O) device nwarmup num_iter w
    = (Ok (map (iteration_latency O (n_clock w)) (seq 0 (Z.to_nat num_iter))),
       w') /\
    advances w w'
      (repeat EvInvoke (Z.to_nat nwarmup) ++
       List.concat (repeat (timed_events device) (Z.to_nat num_iter)))
      (2 * Z.to_nat num_iter) (Z.to_nat nwarmup + Z.to_nat num_iter).
Proof.
  intros H. unfold get_latencies, range.
  destruct (warmup_run (Z.to_nat nwarmup) w) as (w1 & E1 & A1).
  { intros i Hi. apply H. lia. }
  destruct (measured_run device (Z.to_nat num_iter) [] w1) as (w2 & E2 & A2).
  { intros i Hi. destruct A1 as (_ & _ & -> & _).
    rewrite <- Nat.add_assoc. apply H. lia. }
  assert (C1 : n_clock w1 = n_clock w)
    by (destruct A1 as (_ & -> & _ & _); lia).
  rewrite C1 in E2. exists w2. split.
  - rewrite (bind_ok _ E1). exact E2.
  - apply (advances_trans A1 A2).
Qed.

(** X13: in a run of [get_latencies] whose callback returns, the warm-up
    calls are made bare, with no barrier and no clock reading; each timed
    call then comes with two clock readings and, on the device ["cuda"],
    between two barriers; on any other device no barrier is issued at all.
    A negative count runs no turn. *)
Theorem get_latencies_events (device : string) (nwarmup num_iter : Z)
  (w : world) :
  (forall i, (i < Z.to_nat nwarmup + Z.to_nat num_iter)%nat ->
             func_raises O (n_invoke w + i) = false) ->
  exists lats w',
    get_latencies O (invoke O) device nwarmup num_iter w = (Ok lats, w') /\
    log w' =
      (log w ++ repeat EvInvoke (Z.to_nat nwarmup) ++
       List.concat (repeat (if String.eqb device "cuda"
                       then [EvSync; EvInvoke; EvSync]
                       else [EvInvoke])
                 (Z.to_nat num_iter)))%list /\
    n_clock w' = (n_clock w + 2 * Z.to_nat num_iter)%nat /\
    monitor_running w' = monitor_running w.
Proof.
  intros H. destruct (get_latencies_run device nwarmup num_iter w H)
    as (w' & E & L & C & _ & M).
  eexists _, w'. split; [exact E |]. split; [exact L |].
  split; [exact C | exact M].
Qed.

(** X14: with a callback that returns, [get_latencies] returns
    [max num_iter 0] latencies: the list is empty exactly when [num_iter]
    is zero or negative, however many warm-up rounds were asked for. *)
Theorem get_latencies_empty_iff (device : string) (nwarmup num_iter : Z)
  (w : world) :
  (forall i, (i < Z.to_nat nwarmup + Z.to_nat num_iter)%nat ->
             func_raises O (n_invoke w + i) = false) ->
  exists lats w',
    get_latencies O (invoke O) device nwarmup num_iter w = (Ok lats, w') /\
    Z.of_nat (List.length lats) = Z.max num_iter 0 /\
    (lats = [] <-> num_iter <= 0).
Proof.
  intros H. destruct (get_latencies_run device nwarmup num_iter w H)
    as (w' & E & _).
  eexists _, w'. split; [exact E |].
  rewrite length_map, length_seq. split; [lia |].
  destruct (Z.to_nat num_iter) as [|n] eqn:N; simpl.
  - split; [lia | reflexivity].
  - split; [discriminate | lia].
Qed.

(** X15: [get_latencies] does not contain a failure of the callback: when
    its [k]-th call is the first to raise, in the warm-up or in the timed
    loop, the exception goes to the caller right after that call, no
    latency is returned, and no further call is made. *)
Theorem get_latencies_propagates (device : string) (nwarmup num_iter k : nat)
  (w : world) :
  (k < nwarmup + num_iter)%nat ->
  (forall i, (i < k)%nat -> func_raises O (n_invoke w + i) = false) ->
  func_raises O (n_invoke w + k) = true ->
  exists w',
    get_latencies O (invoke O) device (Z.of_nat nwarmup) (Z.of_nat num_iter) w
    = (Raise ModelError, w') /\
    n_invoke w' = (n_invoke w + k + 1)%nat /\
    monitor_running w' = monitor_running w.
Proof.
  intros Hk Hcalm Hraise. unfold get_latencies, range. rewrite !Nat2Z.id.
  destruct (Nat.lt_ge_cases k nwarmup) as [Hw | Hw].
  - destruct (warmup_fail nwarmup k w Hw Hcalm Hraise) as (w1 & E1 & A1).
    exists w1. split; [now rewrite (bind_raise _ E1) |].
    destruct A1 as (_ & _ & I & M). split; [lia | exact M].
  - destruct (warmup_run nwarmup w) as (w1 & E1 & A1).
    { intros i Hi. apply Hcalm. lia. }
    destruct A1 as (_ & _ & I1 & M1).
    destruct (measured_fail device num_iter (k - nwarmup) [] w1)
      as (w2 & E2 & I2 & M2).
    { lia. }
    { intros i Hi. rewrite I1, <- Nat.add_assoc. apply Hcalm. lia. }
    { rewrite I1, <- Nat.add_assoc.
      replace (nwarmup + (k - nwarmup))%nat with k by lia. exact Hraise. }
    exists w2. split; [rewrite (bind_ok _ E1); exact E2 |].
    split; [lia | congruence].
Qed.

End Sampler.

Lemma get_latencies_events_witness :
  (forall i, (i < Z.to_nat 1 + Z.to_nat 2)%nat ->
     func_raises Samples.calm (n_invoke Samples.fresh + i) = false) /\
  exists lats w',
    get_latencies Samples.calm (invoke Samples.calm) "cuda" 1 2 Samples.fresh
    = (Ok lats, w') /\
    log w' =
      (log Samples.fresh ++ repeat EvInvoke (Z.to_nat 1) ++
       List.concat (repeat (if String.eqb "cuda" "cuda"
                       then [EvSync; EvInvoke; EvSync]
                       else [EvInvoke])
                 (Z.to_nat 2)))%list /\
    n_clock w' = (n_clock Samples.fresh + 2 * Z.to_nat 2)%nat /\
    monitor_running w' = monitor_running Samples.fresh.
Proof.
  split; [intros; reflexivity |].
  apply (get_latencies_events Samples.calm "cuda" 1 2 Samples.fresh).
  intros; reflexivity.
Defined.

Lemma get_latencies_empty_iff_witness :
  (forall i, (i < Z.to_nat 3 + Z.to_nat (-2))%nat ->
     func_raises Samples.calm (n_invoke Samples.fresh + i) = false) /\
  exists lats w',
    get_latencies Samples.calm (invoke Samples.calm) "cpu" 3 (-2)
      Samples.fresh = (Ok lats, w') /\
    Z.of_nat (List.length lats) = Z.max (-2) 0 /\
    (lats = [] <-> -2 <= 0).
Proof.
  split; [intros; reflexivity |].
  apply (get_latencies_empty_iff Samples.calm "cpu" 3 (-2) Samples.fresh).
  intros; reflexivity.
Defined.

Lemma get_latencies_propagates_witness :
  (3 < 2 + 3)%nat /\
  func_raises MoreSamples.fourth_call_raises (n_invoke Samples.fresh + 3)
  = true /\
  exists w',
    get_latencies MoreSamples.fourth_call_raises
      (invoke MoreSamples.fourth_call_raises) "cuda" 2 3 Samples.fresh
    = (Raise ModelError, w') /\
    n_invoke w' = (n_invoke Samples.fresh + 3 + 1)%nat /\
    monitor_running w' = monitor_running Samples.fresh.
Proof.
  split; [lia |]. split; [reflexivity |].
  apply (get_latencies_propagates MoreSamples.fourth_call_raises "cuda" 2 3 3
           Samples.fresh).
  - lia.
  - intros i Hi. destruct i as [|[|[|i]]]; [reflexivity .. | lia].
  - reflexivity.
Defined.

Section Scopes.

Variable O : oracle.

(** *** [get_model_flops] *)

Lemma get_model_flops_run (m : model) (w : world) :
  exists w' l,
    get_model_flops O m w =
    (if func_raises O (n_invoke w) then Raise ModelError
     else Ok (fold_right Z.add 0 (map snd (flop_counts_global O))), w') /\
    advances w w' (EvFlopEnter :: l ++ [EvFlopExit]) 0 1 /\
    work_only l /\ invocations l = 1%nat.
Proof.
  unfold get_model_flops.
  destruct (emit_step EvFlopEnter w) as (w1 & E1 & A1).
  destruct (work_func_step O (model_device m) w1) as (w2 & l & E2 & A2 & W & N).
  destruct (emit_step EvFlopExit w2) as (w3 & E3 & A3).
  assert (I1 : n_invoke w1 = n_invoke w)
    by (destruct A1 as (_ & _ & -> & _); lia).
  rewrite I1 in E2.
  exists w3, l. split; [| split; [| split; assumption]].
  - rewrite (bind_ok _ E1). unfold bind at 1, finally. rewrite E2, E3.
    destruct (func_raises O (n_invoke w)); reflexivity.
  - apply (advances_trans (advances_trans A1 A2) A3).
Qed.

(** X16: [get_model_flops] calls the model once inside the counting scope,
    and the scope is left on every path: when the call returns the result
    is the sum of the counts under ["Global"], when it raises the exception
    goes on to the caller, and in both cases the scope was entered before
    the call and left after it. *)
Theorem get_model_flops_scope (m : model) (w : world) :
  exists w' l,
    get_model_flops O m w =
    (if func_raises O (n_invoke w) then Raise ModelError
     else Ok (fold_right Z.add 0 (map snd (flop_counts_global O))), w') /\
    log w' = (log w ++ EvFlopEnter :: l ++ [EvFlopExit])%list /\
    work_only l /\ invocations l = 1%nat /\
    n_invoke w' = S (n_invoke w).
Proof.
  destruct (get_model_flops_run m w) as (w' & l & E & (L & _ & I & _) & W & N).
  exists w', l. repeat split; try assumption. lia.
Qed.

(** *** [get_model_accuracy] *)

(** X17: [get_model_accuracy] loads one model, from a configuration that
    always carries ["--accuracy"] among its extra arguments: the caller's
    own when it already has the flag, and otherwise the caller's with the
    flag put in front; name and requested metrics are the caller's. The
    model is loaded isolated or in process as asked, it is never invoked,
    and the value returned is its accuracy attribute. Asking again with the
    configuration that was loaded loads that same configuration. *)
Theorem get_model_accuracy_forces_flag (config : TorchBenchModelConfig)
  (isolated : bool) (w : world) :
  exists loaded w',
    get_model_accuracy O config isolated w =
    (Ok (attr_accuracy ((if isolated then load_model_isolated O
                         else load_model O) loaded)), w') /\
    log w' = (log w ++ [EvLoad isolated loaded])%list /\
    n_invoke w' = n_invoke w /\
    In "--accuracy" (extra_args loaded) /\
    name loaded = name config /\ metrics loaded = metrics config /\
    (In "--accuracy" (extra_args config) -> loaded = config) /\
    (~ In "--accuracy" (extra_args config) ->
     extra_args loaded = "--accuracy" :: extra_args config) /\
    fst (get_model_accuracy O loaded isolated w)
    = fst (get_model_accuracy O config isolated w).
Proof.
  unfold get_model_accuracy.
  destruct (mem "--accuracy" (extra_args config)) eqn:Hm.
  - exists config. rewrite Hm.
    destruct isolated; (eexists; split; [reflexivity |]); simpl;
      repeat split; try reflexivity; try (now apply mem_In);
      intros Hn; apply mem_In in Hm; contradiction.
  - eexists {| name := name config;
               extra_args := "--accuracy" :: extra_args config;
               metrics := metrics config |}.
    simpl. apply mem_false in Hm.
    destruct isolated; (eexists; split; [reflexivity |]); simpl;
      repeat split; try reflexivity; try (now left);
      intros Hi; contradiction.
Qed.

(** *** [get_peak_memory], what it returns and leaves behind *)

(** X18: what [get_peak_memory] returns follows the request: the host peak
    is the analyzer's when ["cpu_peak_mem"] is in [metrics_needed] and
    [None] otherwise; the device identifier and device peak are the
    analyzer's when ["gpu_peak_mem"] is in it and both [None] otherwise. *)
Theorem get_peak_memory_returns (device : string) (num_iter : Z)
  (export_metrics_file : string) (metrics_needed : list string)
  (metrics_gpu_backend : string) (cpu_monitored_pid : option Z)
  (w w' : world) (cpu : option float) (device_id : option string)
  (gpu : option float) :
  get_peak_memory O (invoke O) device num_iter export_metrics_file
    metrics_needed metrics_gpu_backend cpu_monitored_pid w
  = (Ok (cpu, device_id, gpu), w') ->
  (In "cpu_peak_mem" metrics_needed -> cpu = calculate_cpu_peak_mem O) /\
  (~ In "cpu_peak_mem" metrics_needed -> cpu = None) /\
  (In "gpu_peak_mem" metrics_needed ->
   (device_id, gpu) = calculate_gpu_peak_mem O) /\
  (~ In "gpu_peak_mem" metrics_needed -> device_id = None /\ gpu = None).
Proof.
  intros E.
  assert (Hn : In "cpu_peak_mem" metrics_needed \/
               In "gpu_peak_mem" metrics_needed).
  { destruct (mem "cpu_peak_mem" metrics_needed) eqn:Hc;
      [left; now apply mem_In |].
    destruct (mem "gpu_peak_mem" metrics_needed) eqn:Hg;
      [right; now apply mem_In |].
    apply mem_false in Hc, Hg.
    rewrite (get_peak_memory_unrecognised O) in E by assumption.
    discriminate E. }
  destruct (get_peak_memory_outcome O device num_iter export_metrics_file
              metrics_needed metrics_gpu_backend cpu_monitored_pid w Hn)
    as (r0 & w0 & l1 & E0 & _ & _ & Hr).
  rewrite E in E0. injection E0 as <- <-.
  destruct Hr as [(_ & Hr & _) | [(_ & Hr & _) | (_ & Hr & _)]];
    try discriminate.
  injection Hr as -> -> ->.
  split; [| split; [| split]]; intros Hq.
  - apply mem_In in Hq. now rewrite Hq.
  - apply mem_false in Hq. now rewrite Hq.
  - apply mem_In in Hq. rewrite Hq. now destruct (calculate_gpu_peak_mem O).
  - apply mem_false in Hq. rewrite Hq. split; reflexivity.
Qed.

Lemma export_in_tail (l1 l2 tail : list event) :
  work_only l1 -> work_only l2 ->
  (In EvExport (l1 ++ EvStartMonitor :: l2 ++
                EvStopMonitor :: EvAggregate :: tail)%list
   <-> In EvExport tail).
Proof.
  intros W1 W2. rewrite in_app_iff. simpl. rewrite in_app_iff. simpl.
  split; [| tauto].
  intros [H | [H | [H | [H | [H | H]]]]]; try discriminate; try assumption.
  - apply (work_only_In _ _ W1) in H. discriminate.
  - apply (work_only_In _ _ W2) in H. discriminate.
Qed.

Lemma no_export_before_stop (l1 l2 : list event) :
  work_only l1 -> work_only l2 ->
  ~ In EvExport (l1 ++ EvStartMonitor :: l2)%list.
Proof.
  intros W1 W2 H. apply in_app_or in H as [H | [H | H]]; try discriminate.
  - apply (work_only_In _ _ W1) in H. discriminate.
  - apply (work_only_In _ _ W2) in H. discriminate.
Qed.

(** X19: [get_peak_memory] exports the raw samples exactly when it gets to
    its end and was given a non-empty export path: the export is the last
    thing it does, after the monitor is stopped and the samples
    aggregated, and a run that raises exports nothing. *)
Theorem get_peak_memory_exports (device : string) (num_iter : Z)
  (export_metrics_file : string) (metrics_needed : list string)
  (metrics_gpu_backend : string) (cpu_monitored_pid : option Z) (w : world) :
  let rw := get_peak_memory O (invoke O) device num_iter export_metrics_file
              metrics_needed metrics_gpu_backend cpu_monitored_pid w in
  exists l,
    log (snd rw) = (log w ++ l)%list /\
    (In EvExport l <->
     is_ok (fst rw) = true /\ export_metrics_file <> "") /\
    (In EvExport l ->
     exists before, l = (before ++ [EvStopMonitor; EvAggregate; EvExport])%list).
Proof.
  intros rw. subst rw.
  destruct (mem "cpu_peak_mem" metrics_needed) eqn:Hc;
    [| destruct (mem "gpu_peak_mem" metrics_needed) eqn:Hg].
  3: { apply mem_false in Hc, Hg.
       rewrite get_peak_memory_unrecognised by assumption.
       exists []. simpl. rewrite app_nil_r. split; [reflexivity |].
       split; [split; [contradiction | intros [D _]; discriminate D]
              | contradiction]. }
  all: assert (Hn : In "cpu_peak_mem" metrics_needed \/
                    In "gpu_peak_mem" metrics_needed)
         by (rewrite <- !mem_In; auto).
  all: destruct (get_peak_memory_outcome O device num_iter export_metrics_file
                   metrics_needed metrics_gpu_backend cpu_monitored_pid w Hn)
         as (r & w' & l1 & E & W1 & _ & Hr).
  all: rewrite E; simpl.
  all: destruct Hr as [(_ & -> & (L & _)) |
                       [(_ & -> & _ & _ & (l2 & L & W2)) |
                        (_ & -> & _ & _ & (l2 & L & W2 & _))]].
  1, 4: exists l1; split; [exact L |];
        assert (Hno : ~ In EvExport l1)
          by (intros Hin; apply (work_only_In _ _ W1) in Hin; discriminate);
        split; [split; [contradiction | intros [D _]; discriminate D]
               | contradiction].
  1, 3: eexists; split; [exact L |];
        pose proof (no_export_before_stop l1 l2 W1 W2) as Hno;
        split; [split; [contradiction | intros [D _]; discriminate D]
               | contradiction].
  all: eexists; split; [exact L |].
  all: rewrite (export_in_tail l1 l2 _ W1 W2).
  all: destruct (String.eqb_spec export_metrics_file "") as [-> | Hx]; simpl.
  all: first
         [ split; [split; [intros [] | intros [_ D]; congruence] | intros []]
         | split;
           [ split; [intros _; split; [reflexivity | exact Hx]
                    | intros _; left; reflexivity]
           | intros _; exists (l1 ++ EvStartMonitor :: l2)%list;
             rewrite <- app_assoc; reflexivity ] ].
Qed.

(** X20: when the probe call raises, [get_peak_memory] passes the exception
    on before any monitor is started: the clock was read once, the
    callback called once, and the log shows measured work only. *)
Theorem get_peak_memory_probe_raises (device : string) (num_iter : Z)
  (export_metrics_file : string) (metrics_needed : list string)
  (metrics_gpu_backend : string) (cpu_monitored_pid : option Z) (w : world) :
  In "cpu_peak_mem" metrics_needed \/ In "gpu_peak_mem" metrics_needed ->
  func_raises O (n_invoke w) = true ->
  exists w' l,
    get_peak_memory O (invoke O) device num_iter export_metrics_file
      metrics_needed metrics_gpu_backend cpu_monitored_pid w
    = (Raise ModelError, w') /\
    log w' = (log w ++ l)%list /\ work_only l /\
    ~ In EvStartMonitor l /\
    n_clock w' = (n_clock w + 1)%nat /\
    n_invoke w' = (n_invoke w + 1)%nat /\
    monitor_running w' = monitor_running w.
Proof.
  intros Hn Hraise.
  destruct (get_peak_memory_outcome O device num_iter export_metrics_file
              metrics_needed metrics_gpu_backend cpu_monitored_pid w Hn)
    as (r & w' & l1 & E & W1 & _ & Hr).
  rewrite Hraise in Hr.
  destruct Hr as [(_ & -> & (L & C & I & M)) |
                  [(D & _) | (D & _)]]; try discriminate.
  exists w', l1. repeat split; try assumption.
  intros Hin. apply (work_only_In _ _ W1) in Hin. discriminate.
Qed.

End Scopes.

Lemma get_peak_memory_returns_witness :
  exists w',
    get_peak_memory Samples.calm (invoke Samples.calm) "cpu" 2 ""
      ["gpu_peak_mem"] "nvml" None Samples.fresh
    = (Ok (None, Some "0"%string, Some 20%float), w') /\
    (In "cpu_peak_mem" ["gpu_peak_mem"] ->
     None = calculate_cpu_peak_mem Samples.calm) /\
    (~ In "cpu_peak_mem" ["gpu_peak_mem"] -> @None float = None) /\
    (In "gpu_peak_mem" ["gpu_peak_mem"] ->
     (Some "0"%string, Some 20%float) = calculate_gpu_peak_mem Samples.calm) /\
    (~ In "gpu_peak_mem" ["gpu_peak_mem"] ->
     Some "0"%string = None /\ Some 20%float = None).
Proof.
  eexists. split; [vm_compute; reflexivity |].
  eapply (get_peak_memory_returns Samples.calm "cpu" 2 "" ["gpu_peak_mem"]
            "nvml" None Samples.fresh).
  vm_compute; reflexivity.
Defined.

Lemma get_peak_memory_probe_raises_witness :
  func_raises MoreSamples.first_call_raises (n_invoke Samples.fresh) = true /\
  exists w' l,
    get_peak_memory MoreSamples.first_call_raises
      (invoke MoreSamples.first_call_raises) "cuda" 2 "" ["cpu_peak_mem"]
      "nvml" None Samples.fresh
    = (Raise ModelError, w') /\
    log w' = (log Samples.fresh ++ l)%list /\ work_only l /\
    ~ In EvStartMonitor l /\
    n_clock w' = (n_clock Samples.fresh + 1)%nat /\
    n_invoke w' = (n_invoke Samples.fresh + 1)%nat /\
    monitor_running w' = monitor_running Samples.fresh.
Proof.
  split; [reflexivity |].
  apply (get_peak_memory_probe_raises MoreSamples.first_call_raises "cuda" 2
           "" ["cpu_peak_mem"] "nvml" None Samples.fresh).
  - left; left; reflexivity.
  - reflexivity.
Defined.

(** *** Which exceptions can come out *)

Lemma raises_only_ret {S A} (P : exn -> Prop) (a : A) :
  raises_only P (ret a : M S A).
Proof. intros s. exact I. Qed.

Lemma raises_only_bind {S A B} (P : exn -> Prop) (m : M S A)
  (k : A -> M S B) :
  raises_only P m -> (forall a, raises_only P (k a)) ->
  raises_only P (bind m k).
Proof.
  intros Hm Hk s. unfold bind. specialize (Hm s).
  destruct (m s) as [[a | e] s1]; simpl in *; [apply Hk | exact Hm].
Qed.

Lemma raises_only_lift {S A} (P : exn -> Prop) (r : result A) :
  (forall e, r = Raise e -> P e) -> raises_only P (lift r : M S A).
Proof. intros H s. unfold lift. simpl. destruct r; auto. Qed.

Lemma raises_only_for_range {S A} (P : exn -> Prop) (n : nat)
  (body : A -> M S A) (acc : A) :
  (forall a, raises_only P (body a)) -> raises_only P (for_range n body acc).
Proof.
  intros H. revert acc. induction n as [|n IH]; intros acc; simpl.
  - apply raises_only_ret.
  - apply raises_only_bind; auto.
Qed.

Lemma raises_only_emit (P : exn -> Prop) (e : event) :
  raises_only P (emit e).
Proof. intros s. exact I. Qed.

Lemma truediv_exn (a : Z) (b : float) (e : exn) :
  truediv a b = Raise e -> measurement_exn e.
Proof.
  unfold truediv, float_of_int, measurement_exn.
  destruct (Z.abs a <? FLOAT_OVERFLOW).
  - destruct (PrimFloat.eqb b 0); intros H; inversion H; auto.
  - intros H; inversion H; auto.
Qed.

Lemma comprehension_exn {A B} (P : exn -> Prop) (f : A -> result B)
  (l : list A) (e : exn) :
  (forall x e', f x = Raise e' -> P e') ->
  comprehension f l = Raise e -> P e.
Proof.
  intros Hf. induction l as [|x l IH]; simpl; [discriminate |].
  destruct (f x) eqn:Fx.
  - destruct (comprehension f l); [discriminate |].
    intros H. injection H as <-. now apply IH.
  - intros H. injection H as <-. now apply (Hf x).
Qed.

Section Orchestration.

Variable O : oracle.

Lemma invoke_exn : raises_only measurement_exn (invoke O).
Proof.
  intros w. destruct (invoke_step O w) as (w' & E & _). rewrite E. simpl.
  destruct (func_raises O (n_invoke w)); [now left | exact I].
Qed.

Lemma time_ns_exn (P : exn -> Prop) : raises_only P (time_ns O).
Proof. intros s. exact I. Qed.

Lemma get_latencies_exn (device : string) (nwarmup num_iter : Z) :
  raises_only measurement_exn
    (get_latencies O (invoke O) device nwarmup num_iter).
Proof.
  unfold get_latencies. apply raises_only_bind.
  - apply raises_only_for_range. intros _. apply invoke_exn.
  - intros _. apply raises_only_for_range. intros acc.
    apply raises_only_bind.
    + unfold synchronize. destruct (String.eqb device "cuda");
        repeat first [ apply raises_only_bind; [| intros ?]
                     | apply raises_only_emit
                     | apply time_ns_exn
                     | apply invoke_exn
                     | apply raises_only_ret ].
    + intros t. apply raises_only_bind; [| intros; apply raises_only_ret].
      apply raises_only_lift. apply truediv_exn.
Qed.

Lemma get_model_flops_exn (m : model) :
  raises_only measurement_exn (get_model_flops O m).
Proof.
  intros w. destruct (get_model_flops_run O m w) as (w' & l & E & _).
  rewrite E. simpl.
  destruct (func_raises O (n_invoke w)); [now left | exact I].
Qed.

Lemma get_peak_memory_exn (device : string) (num_iter : Z)
  (export_metrics_file : string) (metrics_needed : list string)
  (metrics_gpu_backend : string) (cpu_monitored_pid : option Z) :
  mem "cpu_peak_mem" metrics_needed || mem "gpu_peak_mem" metrics_needed
  = true ->
  raises_only measurement_exn
    (get_peak_memory O (invoke O) device num_iter export_metrics_file
       metrics_needed metrics_gpu_backend cpu_monitored_pid).
Proof.
  intros H w. apply orb_true_iff in H. rewrite !mem_In in H.
  destruct (get_peak_memory_outcome O device num_iter export_metrics_file
              metrics_needed metrics_gpu_backend cpu_monitored_pid w H)
    as (r & w' & l1 & E & _ & _ & Hr).
  rewrite E. simpl.
  destruct Hr as [(_ & -> & _) | [(_ & -> & _) | (_ & -> & _)]];
    [now left | now left | exact I].
Qed.

(** a handle of one of the two classes gets to the measurements, which
    raise their own exceptions only *)
Lemma get_model_test_metrics_exn (m : model) (required_metrics : list string)
  (export_metrics_file metrics_gpu_backend : string) (nwarmup num_iter : Z) :
  kind m <> KOther ->
  raises_only measurement_exn
    (get_model_test_metrics O m required_metrics export_metrics_file
       metrics_gpu_backend nwarmup num_iter).
Proof.
  intros Hk. unfold get_model_test_metrics.
  assert (Hsteps :
    raises_only measurement_exn
    (bind (if mem "latencies" required_metrics || mem "throughputs" required_metrics
          then bind (get_latencies O (invoke O) (model_device m) nwarmup num_iter)
                 (fun l => ret (set_latencies empty_metrics l))
          else ret empty_metrics)
      (fun metrics =>
    bind (if mem "cpu_peak_mem" required_metrics
             || mem "gpu_peak_mem" required_metrics
          then bind (get_peak_memory O (invoke O) (model_device m) MEMPROF_ITER
                       export_metrics_file required_metrics metrics_gpu_backend
                       (Some match kind m with
                             | KBenchmarkModel => getpid O
                             | _ => worker_pid m
                             end))
                 (fun r => ret (set_peak_mem metrics (fst (fst r)) (snd r)))
          else ret metrics)
      (fun metrics =>
    bind (if mem "throughputs" required_metrics
          then bind (lift (comprehension
                             (fun latency =>
                                truediv (model_batch_size m * 1000) latency)
                             (latencies metrics)))
                 (fun t => ret (set_throughputs metrics t))
          else ret metrics)
      (fun metrics =>
    bind (if mem "pt2_compilation_time" required_metrics
          then ret (set_pt2_compilation_time metrics (attr_pt2_compilation_time m))
          else ret metrics)
      (fun metrics =>
    bind (if mem "pt2_graph_breaks" required_metrics
          then ret (set_pt2_graph_breaks metrics (attr_pt2_graph_breaks m))
          else ret metrics)
      (fun metrics =>
    bind (if mem "model_flops" required_metrics
          then bind (get_model_flops O m)
                 (fun f => ret (set_model_flops metrics (Some f)))
          else ret metrics)
      (fun metrics =>
    bind (if mem "ttfb" required_metrics
          then ret (set_ttfb metrics (attr_ttfb m))
          else ret metrics)
      (fun metrics => ret metrics))))))))).
  { apply raises_only_bind; [| intros m1; apply raises_only_bind;
      [| intros m2; apply raises_only_bind;
        [| intros m3; apply raises_only_bind;
          [| intros m4; apply raises_only_bind;
            [| intros m5; apply raises_only_bind;
              [| intros m6; apply raises_only_bind;
                [| intros; apply raises_only_ret]]]]]]].
    - destruct (_ || _); [| apply raises_only_ret].
      apply raises_only_bind; [apply get_latencies_exn |].
      intros; apply raises_only_ret.
    - destruct (_ || _) eqn:C; [| apply raises_only_ret].
      apply raises_only_bind; [now apply get_peak_memory_exn |].
      intros; apply raises_only_ret.
    - destruct (mem _ _); [| apply raises_only_ret].
      apply raises_only_bind; [| intros; apply raises_only_ret].
      apply raises_only_lift. intros e.
      apply comprehension_exn. intros x e'. apply truediv_exn.
    - destruct (mem _ _); apply raises_only_ret.
    - destruct (mem _ _); apply raises_only_ret.
    - destruct (mem _ _); [| apply raises_only_ret].
      apply raises_only_bind; [apply get_model_flops_exn |].
      intros; apply raises_only_ret.
    - destruct (mem _ _); apply raises_only_ret. }
  destruct (kind m); [exact Hsteps | exact Hsteps | contradiction].
Qed.

(** X21: [get_model_test_metrics] raises [ValueError] exactly for a handle
    that is neither a [BenchmarkModel] nor a [ModelTask], whatever metrics
    are asked for, and then before it does anything: the callback is not
    called and the world is as it was. For the two classes it can only
    pass on the callback's exception or fail in the throughput division. *)
Theorem get_model_test_metrics_type_error (m : model)
  (required_metrics : list string)
  (export_metrics_file metrics_gpu_backend : string) (nwarmup num_iter : Z)
  (w : world) :
  let rw := get_model_test_metrics O m required_metrics export_metrics_file
              metrics_gpu_backend nwarmup num_iter w in
  (fst rw = Raise ValueError <-> kind m = KOther) /\
  (kind m = KOther -> snd rw = w) /\
  (forall e, fst rw = Raise e ->
             e = ValueError \/ e = ModelError \/ e = ZeroDivisionError \/
             e = OverflowError).
Proof.
  intros rw. subst rw.
  destruct (kind m) eqn:K.
  3: { unfold get_model_test_metrics. rewrite K. simpl.
       split; [tauto |]. split; [reflexivity |].
       intros e H. injection H as <-. now left. }
  all: assert (Hk : kind m <> KOther) by (rewrite K; discriminate).
  all: pose proof (get_model_test_metrics_exn m required_metrics
                     export_metrics_file metrics_gpu_backend nwarmup num_iter
                     Hk w) as Hm.
  all: destruct (fst (get_model_test_metrics O m required_metrics
                        export_metrics_file metrics_gpu_backend nwarmup
                        num_iter w)) as [res | e].
  all: split; [split; discriminate || (intros H; inversion H; subst;
                 destruct Hm as [D | [D | D]]; discriminate D) |].
  all: split; [discriminate |].
  all: intros e' H; inversion H; subst; right; exact Hm.
Qed.

(** X22: names that [get_model_test_metrics] does not look for are passed
    over: when [required_metrics] holds none of the eight names it
    measures (it may hold ["accuracy"], or anything else), a handle of one
    of the two classes gets the all-default record back and nothing is
    run, no call of the model and no clock reading. *)
Theorem get_model_test_metrics_nothing_asked (m : model)
  (required_metrics : list string)
  (export_metrics_file metrics_gpu_backend : string) (nwarmup num_iter : Z)
  (w : world) :
  kind m <> KOther ->
  (forall x, In x measured_names -> ~ In x required_metrics) ->
  get_model_test_metrics O m required_metrics export_metrics_file
    metrics_gpu_backend nwarmup num_iter w = (Ok empty_metrics, w).
Proof.
  intros Hk Hnone. unfold get_model_test_metrics.
  assert (Hm : forall x, In x measured_names -> mem x required_metrics = false)
    by (intros x Hx; apply mem_false; auto).
  rewrite (Hm "latencies"), (Hm "throughputs"), (Hm "cpu_peak_mem"),
    (Hm "gpu_peak_mem"), (Hm "pt2_compilation_time"),
    (Hm "pt2_graph_breaks"), (Hm "model_flops"), (Hm "ttfb")
    by (simpl; tauto).
  destruct (kind m); [reflexivity | reflexivity | contradiction].
Qed.

(** X23: no record that [get_model_test_metrics] returns carries an
    accuracy or an error message, even with ["accuracy"] or ["error_msg"]
    among the names asked for. *)
Theorem get_model_test_metrics_never_sets (m : model)
  (required_metrics : list string)
  (export_metrics_file metrics_gpu_backend : string) (nwarmup num_iter : Z)
  (w w' : world) (res : TorchBenchModelMetrics) :
  get_model_test_metrics O m required_metrics export_metrics_file
    metrics_gpu_backend nwarmup num_iter w = (Ok res, w') ->
  accuracy res = None /\ error_msg res = None.
Proof.
  intros H.
  apply (get_model_test_metrics_fields O) in H
    as (_ & _ & F3 & _ & _ & _ & _ & _ & _ & F10).
  now split.
Qed.

End Orchestration.

Lemma get_model_test_metrics_nothing_asked_witness :
  kind Samples.cuda_task <> KOther /\
  get_model_test_metrics Samples.second_call_raises Samples.cuda_task
    ["accuracy"; "memory"] "" "nvml" 10 15 Samples.fresh
  = (Ok empty_metrics, Samples.fresh).
Proof.
  split; [discriminate |].
  apply (get_model_test_metrics_nothing_asked Samples.second_call_raises
           Samples.cuda_task ["accuracy"; "memory"] "" "nvml" 10 15
           Samples.fresh).
  - discriminate.
  - intros x Hx [E | [E | []]]; subst x; simpl in Hx;
      repeat (destruct Hx as [Hx | Hx]; [discriminate Hx |]); exact Hx.
Defined.

Lemma get_model_test_metrics_never_sets_witness :
  exists res w',
    get_model_test_metrics Samples.calm Samples.host_model
      ["accuracy"; "error_msg"; "ttfb"] "" "nvml" 1 2 Samples.fresh
    = (Ok res, w') /\
    ttfb res = Some 1.5%float /\
    accuracy res = None /\ error_msg res = None.
Proof.
  eexists _, _. split; [vm_compute; reflexivity |].
  split; [reflexivity |].
  eapply (get_model_test_metrics_never_sets Samples.calm Samples.host_model
            ["accuracy"; "error_msg"; "ttfb"] "" "nvml" 1 2 Samples.fresh).
  vm_compute; reflexivity.
Defined.

Section Requested.

Variable O : oracle.

Lemma get_model_flops_value (m : model) (w w' : world) (f : Z) :
  get_model_flops O m w = (Ok f, w') ->
  f = fold_right Z.add 0 (map snd (flop_counts_global O)).
Proof.
  intros E. destruct (get_model_flops_run O m w) as (w0 & l & E0 & _).
  rewrite E in E0. destruct (func_raises O (n_invoke w)); [discriminate |].
  now injection E0 as -> _.
Qed.

(** X24: in the record [get_model_test_metrics] returns, each of the six
    metrics that is asked for and does not come from the latencies holds
    what its source gave: the three attributes of the handle ([ttfb],
    [pt2_compilation_time], [pt2_graph_breaks]), the sum of the counted
    operations, and the two peaks of the analyzer. *)
Theorem get_model_test_metrics_asked (m : model)
  (required_metrics : list string)
  (export_metrics_file metrics_gpu_backend : string) (nwarmup num_iter : Z)
  (w w' : world) (res : TorchBenchModelMetrics) :
  get_model_test_metrics O m required_metrics export_metrics_file
    metrics_gpu_backend nwarmup num_iter w = (Ok res, w') ->
  (In "ttfb" required_metrics -> ttfb res = attr_ttfb m) /\
  (In "pt2_compilation_time" required_metrics ->
   pt2_compilation_time res = attr_pt2_compilation_time m) /\
  (In "pt2_graph_breaks" required_metrics ->
   pt2_graph_breaks res = attr_pt2_graph_breaks m) /\
  (In "model_flops" required_metrics ->
   model_flops res
   = Some (fold_right Z.add 0 (map snd (flop_counts_global O)))) /\
  (In "cpu_peak_mem" required_metrics ->
   cpu_peak_mem res = calculate_cpu_peak_mem O) /\
  (In "gpu_peak_mem" required_metrics ->
   gpu_peak_mem res = snd (calculate_gpu_peak_mem O)).
Proof.
  unfold get_model_test_metrics. intros H.
  assert (H' :
    bind (if mem "latencies" required_metrics || mem "throughputs" required_metrics
          then bind (get_latencies O (invoke O) (model_device m) nwarmup num_iter)
                 (fun l => ret (set_latencies empty_metrics l))
          else ret empty_metrics)
      (fun metrics =>
    bind (if mem "cpu_peak_mem" required_metrics
             || mem "gpu_peak_mem" required_metrics
          then bind (get_peak_memory O (invoke O) (model_device m) MEMPROF_ITER
                       export_metrics_file required_metrics metrics_gpu_backend
                       (Some match kind m with
                             | KBenchmarkModel => getpid O
                             | _ => worker_pid m
                             end))
                 (fun r => ret (set_peak_mem metrics (fst (fst r)) (snd r)))
          else ret metrics)
      (fun metrics =>
    bind (if mem "throughputs" required_metrics
          then bind (lift (comprehension
                             (fun latency =>
                                truediv (model_batch_size m * 1000) latency)
                             (latencies metrics)))
                 (fun t => ret (set_throughputs metrics t))
          else ret metrics)
      (fun metrics =>
    bind (if mem "pt2_compilation_time" required_metrics
          then ret (set_pt2_compilation_time metrics (attr_pt2_compilation_time m))
          else ret metrics)
      (fun metrics =>
    bind (if mem "pt2_graph_breaks" required_metrics
          then ret (set_pt2_graph_breaks metrics (attr_pt2_graph_breaks m))
          else ret metrics)
      (fun metrics =>
    bind (if mem "model_flops" required_metrics
          then bind (get_model_flops O m)
                 (fun f => ret (set_model_flops metrics (Some f)))
          else ret metrics)
      (fun metrics =>
    bind (if mem "ttfb" required_metrics
          then ret (set_ttfb metrics (attr_ttfb m))
          else ret metrics)
      (fun metrics => ret metrics))))))) w = (Ok res, w')).
  { destruct (kind m); [exact H | exact H | discriminate H]. }
  clear H.
  apply bind_ok_inv in H' as (m1 & w1 & S1 & H').
  apply bind_ok_inv in H' as (m2 & w2 & S2 & H').
  apply bind_ok_inv in H' as (m3 & w3 & S3 & H').
  apply bind_ok_inv in H' as (m4 & w4 & S4 & H').
  apply bind_ok_inv in H' as (m5 & w5 & S5 & H').
  apply bind_ok_inv in H' as (m6 & w6 & S6 & H').
  apply bind_ok_inv in H' as (m7 & w7 & S7 & H').
  injection H' as <- <-.
  apply asked_step in S1, S2, S3, S6.
  apply asked_pure in S4, S5, S7.
  rewrite <- !mem_In.
  destruct S2 as [(C2 & r & E2 & ->) | (C2 & ->)];
    [apply get_peak_memory_result in E2 as [Rc Rg] |
     apply orb_false_iff in C2 as [Cc Cg]].
  all: destruct S1 as [(C1 & l & _ & ->) | (C1 & ->)].
  all: destruct S3 as [(C3 & t & _ & ->) | (C3 & ->)].
  all: destruct S6 as [(C6 & f & E6 & ->) | (C6 & ->)];
    [apply get_model_flops_value in E6 |].
  all: subst m4 m5 m7; rewrite ?C6, ?Cc, ?Cg.
  all: destruct (mem "pt2_compilation_time" required_metrics),
         (mem "pt2_graph_breaks" required_metrics),
         (mem "ttfb" required_metrics); simpl.
  all: rewrite ?Rc, ?Rg.
  all: repeat split; intros Hq; try discriminate Hq; try reflexivity;
       try congruence.
  all: rewrite Hq; reflexivity.
Qed.

(** *** A latency of zero *)

Lemma float_of_int_ok (a : Z) :
  Z.abs a < FLOAT_OVERFLOW -> exists fa, float_of_int a = Ok fa.
Proof.
  intros H. unfold float_of_int. apply Z.ltb_lt in H. rewrite H. eauto.
Qed.

Lemma comprehension_zero (a : Z) (fa x : float) (l : list float) :
  float_of_int a = Ok fa -> In x l -> PrimFloat.eqb x 0 = true ->
  comprehension (fun latency => truediv a latency) l
  = Raise ZeroDivisionError.
Proof.
  intros Ha Hin Hz. induction l as [|y l IH]; [contradiction |].
  simpl. unfold truediv at 1. rewrite Ha.
  destruct (PrimFloat.eqb y 0) eqn:Y; [reflexivity |].
  destruct Hin as [-> | Hin]; [congruence |].
  now rewrite IH.
Qed.

Lemma latency_zero (c i : nat) :
  reading O (c + 2 * i + 1) = reading O (c + 2 * i) ->
  PrimFloat.eqb (iteration_latency O c i) 0 = true.
Proof.
  intros H. unfold iteration_latency, latency_ms. rewrite H, Z.sub_diag.
  reflexivity.
Qed.

(** X25: a timed call to which the clock gives no duration breaks the
    throughputs: when ["throughputs"] is asked for (and no memory metric),
    the callback returns, and for some timed iteration the two clock
    readings around the call are equal, [get_model_test_metrics] raises
    [ZeroDivisionError] and returns no record. *)
Theorem get_model_test_metrics_zero_latency (m : model)
  (required_metrics : list string)
  (export_metrics_file metrics_gpu_backend : string)
  (nwarmup num_iter i : nat) (w : world) :
  kind m <> KOther ->
  In "throughputs" required_metrics ->
  ~ In "cpu_peak_mem" required_metrics ->
  ~ In "gpu_peak_mem" required_metrics ->
  (forall j, (j < nwarmup + num_iter)%nat ->
             func_raises O (n_invoke w + j) = false) ->
  (i < num_iter)%nat ->
  reading O (n_clock w + 2 * i + 1) = reading O (n_clock w + 2 * i) ->
  Z.abs (model_batch_size m * 1000) < FLOAT_OVERFLOW ->
  fst (get_model_test_metrics O m required_metrics export_metrics_file
         metrics_gpu_backend (Z.of_nat nwarmup) (Z.of_nat num_iter) w)
  = Raise ZeroDivisionError.
Proof.
  intros Hk Ht Hc Hg Hcalm Hi Hclock Hbs.
  apply mem_In in Ht. apply mem_false in Hc, Hg.
  destruct (float_of_int_ok _ Hbs) as (fa & Hfa).
  destruct (get_latencies_run O (model_device m) (Z.of_nat nwarmup)
              (Z.of_nat num_iter) w) as (w1 & E1 & _).
  { rewrite !Nat2Z.id. exact Hcalm. }
  rewrite Nat2Z.id in E1.
  unfold get_model_test_metrics. rewrite Ht, Hc, Hg, orb_true_r. simpl orb.
  assert (Hz : comprehension
                 (fun latency => truediv (model_batch_size m * 1000) latency)
                 (map (iteration_latency O (n_clock w)) (seq 0 num_iter))
               = Raise ZeroDivisionError).
  { apply (comprehension_zero _ fa (iteration_latency O (n_clock w) i)).
    - exact Hfa.
    - apply in_map. apply in_seq. lia.
    - now apply latency_zero. }
  assert (Hrun :
    fst (bind (bind (get_latencies O (invoke O) (model_device m)
                       (Z.of_nat nwarmup) (Z.of_nat num_iter))
                 (fun l => ret (set_latencies empty_metrics l)))
           (fun metrics =>
            bind (ret metrics)
              (fun metrics =>
               bind (bind (lift (comprehension
                                   (fun latency =>
                                      truediv (model_batch_size m * 1000)
                                        latency)
                                   (latencies metrics)))
                       (fun t => ret (set_throughputs metrics t)))
                 (fun metrics =>
    bind (if mem "pt2_compilation_time" required_metrics
          then ret (set_pt2_compilation_time metrics (attr_pt2_compilation_time m))
          else ret metrics)
      (fun metrics =>
    bind (if mem "pt2_graph_breaks" required_metrics
          then ret (set_pt2_graph_breaks metrics (attr_pt2_graph_breaks m))
          else ret metrics)
      (fun metrics =>
    bind (if mem "model_flops" required_metrics
          then bind (get_model_flops O m)
                 (fun f => ret (set_model_flops metrics (Some f)))
          else ret metrics)
      (fun metrics =>
    bind (if mem "ttfb" required_metrics
          then ret (set_ttfb metrics (attr_ttfb m))
          else ret metrics)
      (fun metrics => ret metrics))))))) w)
    = Raise ZeroDivisionError).
  { unfold bind at 1. unfold bind at 1. rewrite E1.
    unfold ret at 1. unfold bind at 1. unfold ret at 1.
    unfold bind at 1. unfold bind at 1. unfold lift at 1.
    simpl latencies. rewrite Hz. reflexivity. }
  destruct (kind m); [exact Hrun | exact Hrun | contradiction].
Qed.

(** *** [run_config] *)

(** X26: a dry run of [run_config] loads no model and measures nothing:
    it prints its two markers and returns the all-default record, or the
    mapping of it when [as_dict] is set, whatever the configuration asks
    for. *)
Theorem run_config_dry_run (config : TorchBenchModelConfig) (as_dict : bool)
  (w : world) :
  exists w',
    run_config O config as_dict true w
    = (Ok (if as_dict then inr (asdict empty_metrics) else inl empty_metrics),
       w') /\
    log w' =
      (log w ++ [EvPrint ("Running config " ++ repr_config O config ++ " ...");
                 EvPrint ("[skip_by_dryrun]" ++ newline)])%list /\
    n_invoke w' = n_invoke w /\ n_clock w' = n_clock w /\
    monitor_running w' = monitor_running w.
Proof.
  eexists. split; [reflexivity |]. cbn [log n_invoke n_clock monitor_running].
  rewrite <- app_assoc, string_app_nil_r. repeat split.
Qed.

(** X27: [run_config] does not contain a failure of the model: with
    ["latencies"] asked for and no accuracy, when the first call of the
    loaded model raises, the exception goes to the caller after the model
    was loaded once and called once, and the end marker is not printed. *)
Theorem run_config_propagates (config : TorchBenchModelConfig)
  (as_dict : bool) (w : world) :
  In "latencies" (metrics config) ->
  ~ In "accuracy" (metrics config) ->
  kind (load_model_isolated O config) <> KOther ->
  func_raises O (n_invoke w) = true ->
  exists w',
    run_config O config as_dict false w = (Raise ModelError, w') /\
    log w' =
      (log w ++ [EvPrint ("Running config " ++ repr_config O config ++ " ...");
                 EvLoad true config; EvInvoke])%list /\
    n_invoke w' = S (n_invoke w).
Proof.
  intros Hl Ha Hk Hraise.
  apply mem_In in Hl. apply mem_false in Ha.
  set (w2 := {| n_clock := n_clock w; n_invoke := n_invoke w;
                monitor_running := monitor_running w;
                log := ((log w ++
                         [EvPrint (("Running config " ++ repr_config O config
                                    ++ " ...") ++ "")])
                        ++ [EvLoad true config])%list |}).
  destruct (warmup_fail O 10 0 w2) as (w3 & E3 & (L3 & _ & I3 & _)).
  { lia. }
  { intros i Hi; lia. }
  { simpl. now rewrite Nat.add_0_r. }
  simpl in L3, I3.
  assert (Hlat : get_latencies O (invoke O)
                   (model_device (load_model_isolated O config))
                   WARMUP_ROUNDS BENCHMARK_ITERS w2 = (Raise ModelError, w3)).
  { unfold get_latencies. now rewrite (bind_raise _ E3). }
  assert (Hm : get_model_test_metrics O (load_model_isolated O config)
                 (metrics config) "" "nvml" WARMUP_ROUNDS BENCHMARK_ITERS w2
               = (Raise ModelError, w3)).
  { unfold get_model_test_metrics. rewrite Hl, orb_true_l.
    destruct (kind (load_model_isolated O config)); [| | contradiction];
      now rewrite (bind_raise _ (bind_raise _ Hlat)). }
  exists w3. split; [| split; [| lia]].
  - unfold run_config, run_config_metrics, print.
    cbv beta iota zeta delta [bind emit ret]. rewrite Ha.
    cbv beta iota zeta delta [fst snd].
    destruct (metrics config) as [|x rest] eqn:Mc; [discriminate Hl |].
    match goal with
    | |- context [get_model_test_metrics _ _ _ _ _ _ _ ?w0] =>
        change w0 with w2
    end.
    rewrite Hm. reflexivity.
  - rewrite L3. cbn [log]. rewrite string_app_nil_r, <- !app_assoc.
    reflexivity.
Qed.

End Requested.

Lemma get_model_test_metrics_asked_witness :
  exists res w',
    get_model_test_metrics Samples.calm Samples.host_model
      ["model_flops"; "ttfb"; "gpu_peak_mem"] "" "nvml" 1 2 Samples.fresh
    = (Ok res, w') /\
    model_flops res = Some 12 /\
    ttfb res = Some 1.5%float /\
    (In "gpu_peak_mem" ["model_flops"; "ttfb"; "gpu_peak_mem"] ->
     gpu_peak_mem res = snd (calculate_gpu_peak_mem Samples.calm)).
Proof.
  eexists _, _. split; [vm_compute; reflexivity |].
  split; [reflexivity |]. split; [reflexivity |].
  eapply (get_model_test_metrics_asked Samples.calm Samples.host_model
            ["model_flops"; "ttfb"; "gpu_peak_mem"] "" "nvml" 1 2
            Samples.fresh).
  vm_compute; reflexivity.
Defined.

Lemma get_model_test_metrics_zero_latency_witness :
  kind Samples.host_model <> KOther /\
  reading MoreSamples.frozen_clock (n_clock Samples.fresh + 2 * 1 + 1)
  = reading MoreSamples.frozen_clock (n_clock Samples.fresh + 2 * 1) /\
  fst (get_model_test_metrics MoreSamples.frozen_clock Samples.host_model
         ["throughputs"] "" "nvml" (Z.of_nat 1) (Z.of_nat 2) Samples.fresh)
  = Raise ZeroDivisionError.
Proof.
  split; [discriminate |]. split; [reflexivity |].
  apply (get_model_test_metrics_zero_latency MoreSamples.frozen_clock
           Samples.host_model ["throughputs"] "" "nvml" 1 2 1 Samples.fresh).
  - discriminate.
  - left; reflexivity.
  - intros [E | []]; discriminate E.
  - intros [E | []]; discriminate E.
  - intros; reflexivity.
  - lia.
  - reflexivity.
  - vm_compute; reflexivity.
Defined.

Lemma run_config_propagates_witness :
  func_raises MoreSamples.first_call_raises (n_invoke Samples.fresh) = true /\
  exists w',
    run_config MoreSamples.first_call_raises MoreSamples.latencies_only
      false false Samples.fresh = (Raise ModelError, w') /\
    log w' = (log Samples.fresh ++
              [EvPrint ("Running config " ++
                        repr_config MoreSamples.first_call_raises
                          MoreSamples.latencies_only ++ " ...");
               EvLoad true MoreSamples.latencies_only; EvInvoke])%list /\
    n_invoke w' = S (n_invoke Samples.fresh).
Proof.
  split; [reflexivity |].
  apply (run_config_propagates MoreSamples.first_call_raises
           MoreSamples.latencies_only false Samples.fresh).
  - left; reflexivity.
  - intros [E | []]; discriminate E.
  - discriminate.
  - reflexivity.
Defined.

End MetricsMore.
